(** * Scheduled publishing of lessons: the lifecycle methods of the Lesson
    model, the admin controllers that call them, and the publishing worker.

    Embedded sources:
    - backend/src/models/Lesson.js   (toJSON transform, validateAssets,
                                      publish, schedule, archive)
    - backend/src/models/Program.js  (autoPublish, getPublishedLessonsCount)
    - backend/src/models/Term.js     (getLessonsCount, getPublishedLessonsCount)
    - backend/src/controllers/lessonController.js
                                     (getLessons, getLesson, deleteLesson,
                                      publishLesson, scheduleLesson,
                                      archiveLesson)
    - backend/src/controllers/termController.js (deleteTerm)
    - backend/src/middleware/errorHandler.js
    - worker/src/index.js            (processScheduledLessons)
    - worker/src/models/Lesson.js    (validateAssets)

    Conventions of the embedding.
    - A JavaScript [Date] is its time value in milliseconds, a [Z]; the
      invalid date (time value NaN) is a separate constructor.  An absent or
      [undefined] field is [None].
    - MongoDB collections keyed by [_id] are finite maps; the asset collection,
      which is only ever filtered, is a list.
    - Every [await] on the database may reject.  Which ones do, and what each
      reading of the clock returns, is fixed per request by an environment
      [Env].
    - The API and the worker are two processes, each with the Mongoose models
      its own files register.
    - [createdAt] and [updatedAt], which [timestamps: true] maintains, are
      fields of the documents; the version key [__v], which no operation
      here changes, is not. *)

From Stdlib Require Import ZArith String.
From stdpp Require Import gmap strings list sorting.

Local Open Scope string_scope.

(** ** Documents *)

Abbreviation ObjectId := nat.

(** A JavaScript [Date] object. *)
Inductive JsDate :=
| ValidDate (t : Z)
| InvalidDate.

Module Lesson.
Inductive Status := draft | scheduled | published | archived.
Inductive ContentType := video | article.

Record t := {
  _id : ObjectId;
  termId : ObjectId;
  lessonNumber : nat;
  title : string;
  contentType : ContentType;
  durationMs : option Z;
  isPaid : bool;
  contentLanguagePrimary : string;
  contentLanguagesAvailable : list string;
  contentUrlsByLanguage : gmap string string;
  subtitleLanguages : list string;
  subtitleUrlsByLanguage : gmap string string;
  status : Status;
  publishAt : option Z;
  publishedAt : option Z;
  createdAt : Z;
  updatedAt : Z
}.

#[global] Instance Status_eq_dec : EqDecision Status.
Proof. solve_decision. Defined.

#[global] Instance ContentType_eq_dec : EqDecision ContentType.
Proof. solve_decision. Defined.

#[global] Instance t_eq_dec : EqDecision t.
Proof. solve_decision. Defined.

(** The three assignments [this.status = st; this.publishAt = pa;
    this.publishedAt = pd] on a document; every other path is kept. *)
Definition assign (this : t) (st : Status) (pa pd : option Z) : t :=
  {| _id := _id this; termId := termId this;
     lessonNumber := lessonNumber this; title := title this;
     contentType := contentType this; durationMs := durationMs this;
     isPaid := isPaid this;
     contentLanguagePrimary := contentLanguagePrimary this;
     contentLanguagesAvailable := contentLanguagesAvailable this;
     contentUrlsByLanguage := contentUrlsByLanguage this;
     subtitleLanguages := subtitleLanguages this;
     subtitleUrlsByLanguage := subtitleUrlsByLanguage this;
     status := st; publishAt := pa; publishedAt := pd;
     createdAt := createdAt this; updatedAt := updatedAt this |}.

(** The assignment [this.updatedAt = time]. *)
Definition touch (this : t) (time : Z) : t :=
  {| _id := _id this; termId := termId this;
     lessonNumber := lessonNumber this; title := title this;
     contentType := contentType this; durationMs := durationMs this;
     isPaid := isPaid this;
     contentLanguagePrimary := contentLanguagePrimary this;
     contentLanguagesAvailable := contentLanguagesAvailable this;
     contentUrlsByLanguage := contentUrlsByLanguage this;
     subtitleLanguages := subtitleLanguages this;
     subtitleUrlsByLanguage := subtitleUrlsByLanguage this;
     status := status this; publishAt := publishAt this;
     publishedAt := publishedAt this;
     createdAt := createdAt this; updatedAt := time |}.
End Lesson.

Module Term.
Record t := {
  _id : ObjectId;
  programId : ObjectId;
  termNumber : nat;
  title : option string
}.
End Term.

Module Program.
Inductive Status := draft | published | archived.
Inductive Difficulty := beginner | intermediate | advanced.

Record t := {
  _id : ObjectId;
  title : string;
  description : option string;
  youtubeUrl : option string;
  youtubeVideoId : option string;
  thumbnail : string;
  customThumbnail : bool;
  languagePrimary : string;
  languagesAvailable : list string;
  status : Status;
  publishedAt : option Z;
  topicIds : list ObjectId;
  difficulty : Difficulty;
  duration : option Z;
  price : Z;
  tags : list string;
  createdAt : Z;
  updatedAt : Z
}.

#[global] Instance Status_eq_dec : EqDecision Status.
Proof. solve_decision. Defined.

#[global] Instance Difficulty_eq_dec : EqDecision Difficulty.
Proof. solve_decision. Defined.

#[global] Instance t_eq_dec : EqDecision t.
Proof. solve_decision. Defined.

(** The two assignments [this.status = st; this.publishedAt = pd]. *)
Definition assign (this : t) (st : Status) (pd : option Z) : t :=
  {| _id := _id this; title := title this; description := description this;
     youtubeUrl := youtubeUrl this; youtubeVideoId := youtubeVideoId this;
     thumbnail := thumbnail this; customThumbnail := customThumbnail this;
     languagePrimary := languagePrimary this;
     languagesAvailable := languagesAvailable this;
     status := st; publishedAt := pd; topicIds := topicIds this;
     difficulty := difficulty this; duration := duration this;
     price := price this; tags := tags this;
     createdAt := createdAt this; updatedAt := updatedAt this |}.

(** The assignment [this.updatedAt = time]. *)
Definition touch (this : t) (time : Z) : t :=
  {| _id := _id this; title := title this; description := description this;
     youtubeUrl := youtubeUrl this; youtubeVideoId := youtubeVideoId this;
     thumbnail := thumbnail this; customThumbnail := customThumbnail this;
     languagePrimary := languagePrimary this;
     languagesAvailable := languagesAvailable this;
     status := status this; publishedAt := publishedAt this;
     topicIds := topicIds this;
     difficulty := difficulty this; duration := duration this;
     price := price this; tags := tags this;
     createdAt := createdAt this; updatedAt := time |}.
End Program.

Module LessonAsset.
Record t := {
  lessonId : ObjectId;
  language : string;
  variant : string;      (* 'portrait' | 'landscape' | 'square' | 'banner' *)
  assetType : string;    (* 'thumbnail' *)
  url : string
}.
End LessonAsset.

(** ** The database *)

Record Store := {
  lessons : gmap ObjectId Lesson.t;
  terms : gmap ObjectId Term.t;
  programs : gmap ObjectId Program.t;
  lessonAssets : list LessonAsset.t
}.

Definition setLessons (s : Store) (m : gmap ObjectId Lesson.t) : Store :=
  {| lessons := m; terms := terms s; programs := programs s;
     lessonAssets := lessonAssets s |}.

Definition setPrograms (s : Store) (m : gmap ObjectId Program.t) : Store :=
  {| lessons := lessons s; terms := terms s; programs := m;
     lessonAssets := lessonAssets s |}.

Definition setTerms (s : Store) (m : gmap ObjectId Term.t) : Store :=
  {| lessons := lessons s; terms := m; programs := programs s;
     lessonAssets := lessonAssets s |}.

(** ** Errors and the request environment *)

Inductive DbOp :=
| LessonFindById | LessonAssetFind | LessonSave
| TermFindById | ProgramFindById | ProgramSave
| LessonFind | StartSession | EndSession.

Inductive Error :=
| JsError (message : string)
    (* throw new Error(message) *)
| AppError (message : string) (statusCode : nat) (code : string)
    (* throw createError(message, statusCode, code) *)
| CastError (path : string)
    (* Mongoose: Cast to date failed for an invalid Date at save *)
| TypeError
    (* the engine's: Object.fromEntries of a value that is not iterable *)
| MissingSchemaError (name : string)
    (* Mongoose: mongoose.model(name) of a name without a registered schema *)
| StorageError (op : DbOp).
    (* the awaited database call rejected *)

Inductive Result (A : Type) :=
| Ok (a : A)
| Throw (e : Error).
Arguments Ok {A} a.
Arguments Throw {A} e.

(** What the outside world decides during one request: which database calls
    reject, and the readings of the clock, in the order they are taken. *)
Record Env := {
  fails : DbOp → bool;
  now : Z;             (* the [new Date()] of the lifecycle method *)
  nowSaved : Z;        (* the clock read when the lesson is saved *)
  nowCascade : Z;      (* the [new Date()] of the program cascade *)
  nowCascadeSaved : Z  (* the clock read when the program is saved *)
}.

(** ** A state-and-exception monad

    [M S A] is a computation over a state [S] that returns an [A] or throws.
    A throw keeps the state reached so far: writes already awaited stay. *)

Definition M (S A : Type) : Type := S → S * Result A.

Definition ret {S A} (a : A) : M S A := λ s, (s, Ok a).
Definition throw {S A} (e : Error) : M S A := λ s, (s, Throw e).
Definition bind {S A B} (m : M S A) (k : A → M S B) : M S B :=
  λ s, match m s with
       | (s', Ok a) => k a s'
       | (s', Throw e) => (s', Throw e)
       end.
Definition modify {S} (f : S → S) : M S unit := λ s, (f s, Ok tt).

(** [try { m } catch (error) { h error }] *)
Definition tryCatch {S A} (m : M S A) (h : Error → M S A) : M S A :=
  λ s, match m s with
       | (s', Ok a) => (s', Ok a)
       | (s', Throw e) => h e s'
       end.

Declare Scope js_scope.
Delimit Scope js_scope with js.
Notation "'let*' x := m 'in' k" := (bind m (λ x, k))
  (at level 10, x name, m at level 100, k at level 200) : js_scope.
Notation "m ;; k" := (bind m (λ _, k))
  (at level 100, k at level 200, right associativity) : js_scope.
Local Open Scope js_scope.

(** An awaited database call: rejects when the environment says so. *)
Definition await {S A} (e : Env) (op : DbOp) (m : M S A) : M S A :=
  if fails e op then throw (StorageError op) else m.

(** ** The models of a process

    [mongoose.model(name, schema)] registers a model when the file that
    defines it is loaded; [mongoose.model(name)] looks one up and throws
    for a name that was never registered. *)

(** [Array.prototype.includes] on strings. *)
Definition includes (l : list string) (x : string) : bool :=
  existsb (String.eqb x) l.

(** The API: app.js loads routes/auth.js, routes/admin.js and
    routes/catalog.js, whose controllers require these model files. *)
Definition backendModels : list string :=
  ["User"; "Program"; "Term"; "Lesson"; "Topic"; "ProgramAsset"; "LessonAsset"].

(** The worker: index.js requires ./models/Lesson, ./models/Term and
    ./models/Program, and nothing requires ./models/LessonAsset. *)
Definition workerModels : list string := ["Lesson"; "Term"; "Program"].

(** [mongoose.model(name)] in a process with the given registered models. *)
Definition mongoose_model {S} (registered : list string) (name : string) : M S unit :=
  if includes registered name then ret tt else throw (MissingSchemaError name).

(** ** Collection primitives (Mongoose model calls) *)

(** [Lesson.findById(id)] *)
Definition Lesson_findById (e : Env) (id : ObjectId) : M Store (option Lesson.t) :=
  await e LessonFindById (λ s, (s, Ok (lessons s !! id))).

(** The pre-save hook that [timestamps: true] installs: a document modified
    since it was read gets its [updatedAt] from the clock.  A document is
    read from its collection by the request that saves it, and nothing else
    is written to it in between, so it is modified exactly when it differs
    from the stored document of its [_id]. *)
Definition Lesson_timestamps (e : Env) (stored : option Lesson.t) (doc : Lesson.t)
    : Lesson.t :=
  if decide (stored = Some doc) then doc else Lesson.touch doc (nowSaved e).

(** [lesson.save()]: the update is keyed by [_id] alone and resolves to the
    document.  The lifecycle methods always leave the two validators of
    [publishAt] and [publishedAt] satisfied; a rejection, by the driver or
    by the validation of a path they do not assign, is the environment's. *)
Definition Lesson_save (e : Env) (doc : Lesson.t) : M Store Lesson.t :=
  await e LessonSave
    (λ s, let doc' := Lesson_timestamps e (lessons s !! Lesson._id doc) doc in
          (setLessons s (<[Lesson._id doc := doc']> (lessons s)), Ok doc')).

(** [Term.findById(id)] *)
Definition Term_findById (e : Env) (id : ObjectId) : M Store (option Term.t) :=
  await e TermFindById (λ s, (s, Ok (terms s !! id))).

(** [Program.findById(id)] *)
Definition Program_findById (e : Env) (id : ObjectId) : M Store (option Program.t) :=
  await e ProgramFindById (λ s, (s, Ok (programs s !! id))).

(** The timestamps hook of the program schema. *)
Definition Program_timestamps (e : Env) (stored : option Program.t) (doc : Program.t)
    : Program.t :=
  if decide (stored = Some doc) then doc else Program.touch doc (nowCascadeSaved e).

(** [program.save()].  The schema's own pre-save hook only acts on a
    modified [youtubeUrl], which the cascade never assigns. *)
Definition Program_save (e : Env) (doc : Program.t) : M Store Program.t :=
  await e ProgramSave
    (λ s, let doc' := Program_timestamps e (programs s !! Program._id doc) doc in
          (setPrograms s (<[Program._id doc := doc']> (programs s)), Ok doc')).

(** The query [{ lessonId, language, assetType }] on one asset. *)
Definition assetMatches (lessonId : ObjectId) (language assetType : string)
    (a : LessonAsset.t) : bool :=
  bool_decide (LessonAsset.lessonId a = lessonId)
  && String.eqb (LessonAsset.language a) language
  && String.eqb (LessonAsset.assetType a) assetType.

(** [LessonAsset.find({ lessonId, language, assetType })] *)
Definition LessonAsset_find (e : Env) (lessonId : ObjectId)
    (language assetType : string) : M Store (list LessonAsset.t) :=
  await e LessonAssetFind
    (λ s, (s, Ok (List.filter (assetMatches lessonId language assetType)
                    (lessonAssets s)))).

(** ** Lesson methods (backend/src/models/Lesson.js) *)

Record AssetValidation := {
  isValid : bool;
  missingVariants : list string;
  message : string
}.

Definition requiredVariants : list string := ["portrait"; "landscape"].

(** The pure part of [validateAssets], from the assets the query returned. *)
Definition checkVariants (assets : list LessonAsset.t) : AssetValidation :=
  let availableVariants := List.map LessonAsset.variant assets in
  let missingVariants :=
    List.filter (λ variant, negb (includes availableVariants variant))
      requiredVariants in
  {| isValid := Nat.eqb (length missingVariants) 0;
     missingVariants := missingVariants;
     message :=
       if Nat.ltb 0 (length missingVariants)
       then "Missing required thumbnail variants: "
            ++ String.concat ", " missingVariants
       else "All required assets are present" |}.

(** [lessonSchema.methods.validateAssets], in the API. *)
Definition validateAssets (e : Env) (this : Lesson.t) : M Store AssetValidation :=
  mongoose_model backendModels "LessonAsset" ;;
  let* assets := LessonAsset_find e (Lesson._id this)
                   (Lesson.contentLanguagePrimary this) "thumbnail" in
  ret (checkVariants assets).

(** [programSchema.methods.autoPublish].  A [Date] object is truthy, so
    [this.publishedAt || new Date()] keeps a date that is already there. *)
Definition autoPublish (e : Env) (this : Program.t) : M Store Program.t :=
  if decide (Program.status this = Program.draft) then
    let this' :=
      Program.assign this Program.published
        (match Program.publishedAt this with
         | Some d => Some d
         | None => Some (nowCascade e)
         end) in
    Program_save e this'
  else ret this.

(** [lessonSchema.methods.publish] *)
Definition publish (e : Env) (this : Lesson.t) : M Store Lesson.t :=
  let* assetValidation := validateAssets e this in
  if negb (isValid assetValidation) then
    throw (JsError ("Cannot publish lesson: " ++ message assetValidation))
  else
    let this' := Lesson.assign this Lesson.published None (Some (now e)) in
    let* this' := Lesson_save e this' in
    mongoose_model backendModels "Term" ;;
    mongoose_model backendModels "Program" ;;
    let* term := Term_findById e (Lesson.termId this') in
    match term with
    | Some term =>
        let* program := Program_findById e (Term.programId term) in
        match program with
        | Some program =>
            if decide (Program.status program = Program.draft)
            then autoPublish e program ;; ret tt
            else ret tt
        | None => ret tt
        end
    | None => ret tt
    end ;;
    ret this'.

(** The guard [!publishAt || publishAt <= new Date()].  A comparison with
    the invalid date is false. *)
Definition notInFuture (publishAt : option JsDate) (current : Z) : bool :=
  match publishAt with
  | None => true
  | Some (ValidDate t) => bool_decide (t ≤ current)%Z
  | Some InvalidDate => false
  end.

(** [lessonSchema.methods.schedule].  An invalid date passes the guard and
    is refused when the document is saved. *)
Definition schedule (e : Env) (publishAt : option JsDate) (this : Lesson.t)
    : M Store Lesson.t :=
  if notInFuture publishAt (now e) then
    throw (JsError "Publish date must be in the future")
  else
    match publishAt with
    | Some (ValidDate t) =>
        Lesson_save e (Lesson.assign this Lesson.scheduled (Some t) None)
    | _ => throw (CastError "publishAt")
    end.

(** [lessonSchema.methods.archive] *)
Definition archive (e : Env) (this : Lesson.t) : M Store Lesson.t :=
  Lesson_save e
    (Lesson.assign this Lesson.archived
       (Lesson.publishAt this) (Lesson.publishedAt this)).

(** ** Serialising a lesson (the [toJSON] option of the lesson schema) *)

(** The two kinds of value the transform meets in a Map path. *)
Inductive JsValue :=
| JsMap (entries : gmap string string)      (* a Map, which is iterable *)
| JsObject (entries : gmap string string).  (* a plain object, which is not *)

(** [Object.fromEntries(iterable)] *)
Definition Object_fromEntries (v : JsValue) : Result JsValue :=
  match v with
  | JsMap entries => Ok (JsObject entries)
  | JsObject _ => Throw TypeError
  end.

(** The plain object [ret] of the transform: the document's paths, with the
    two Map paths as the values the transform finds and leaves there. *)
Record LessonJson := {
  paths : Lesson.t;
  contentUrls : JsValue;
  subtitleUrls : JsValue
}.

(** What [doc.toJSON()] hands to the transform: Mongoose clones the
    document and, for [toJSON], flattens its Maps into plain objects before
    the transform runs. *)
Definition Lesson_flattenMaps (doc : Lesson.t) : LessonJson :=
  {| paths := doc;
     contentUrls := JsObject (Lesson.contentUrlsByLanguage doc);
     subtitleUrls := JsObject (Lesson.subtitleUrlsByLanguage doc) |}.

(** The schema's [toJSON.transform].  Both paths are always there, and a
    Map or an object is truthy, so both [if]s are entered. *)
Definition Lesson_transform (ret : LessonJson) : Result LessonJson :=
  match Object_fromEntries (contentUrls ret) with
  | Throw error => Throw error
  | Ok content =>
      match Object_fromEntries (subtitleUrls ret) with
      | Throw error => Throw error
      | Ok subtitle =>
          Ok {| paths := paths ret; contentUrls := content;
                subtitleUrls := subtitle |}
      end
  end.

(** [lesson.toJSON()], which [JSON.stringify] calls. *)
Definition Lesson_toJSON (doc : Lesson.t) : Result LessonJson :=
  Lesson_transform (Lesson_flattenMaps doc).

(** [lessons.map(lesson => lesson.toJSON())], as [JSON.stringify] does on
    an array, left to right. *)
Fixpoint Lessons_toJSON (docs : list Lesson.t) : Result (list LessonJson) :=
  match docs with
  | [] => Ok []
  | doc :: rest =>
      match Lesson_toJSON doc with
      | Throw error => Throw error
      | Ok json =>
          match Lessons_toJSON rest with
          | Throw error => Throw error
          | Ok jsons => Ok (json :: jsons)
          end
      end
  end.

(** ** Responses and the error middleware (middleware/errorHandler.js) *)

Inductive Body :=
| LessonBody (lesson : LessonJson)
    (* res.json(lesson) *)
| LessonsBody (lessons : list LessonJson)
    (* res.json({ lessons }) *)
| ErrorBody (code message : string) (fields : list string).
    (* createErrorResponse(code, message, details, requestId); of each
       detail only its field is kept *)

Record Response := {
  httpStatus : nat;
  body : Body
}.

(** [res.json(lesson)].  Express serialises the body with
    [JSON.stringify] before it sends anything, so an error thrown by
    [toJSON] leaves [res.json] with nothing sent. *)
Definition res_json {S} (lesson : Lesson.t) : M S Response :=
  match Lesson_toJSON lesson with
  | Ok json => ret {| httpStatus := 200; body := LessonBody json |}
  | Throw error => throw error
  end.

(** [res.json({ lessons })] *)
Definition res_json_lessons {S} (lessons : list Lesson.t) : M S Response :=
  match Lessons_toJSON lessons with
  | Ok jsons => ret {| httpStatus := 200; body := LessonsBody jsons |}
  | Throw error => throw error
  end.

(** The answer of [errorHandler], on the errors of this model.  The thrown
    [Error], the [createError] objects, the [TypeError] and the
    [MissingSchemaError] have none of the names the handler tests for, and
    only the [createError] objects have a [statusCode]; a cast failure
    reaches the handler inside a Mongoose ['ValidationError'].  What a
    rejected database call is answered with depends on the driver's error
    object and is left open ([None]). *)
Definition errorHandler (err : Error) : option Response :=
  match err with
  | CastError path =>
      Some {| httpStatus := 400;
              body := ErrorBody "VALIDATION_ERROR" "Validation failed" [path] |}
  | AppError message statusCode code =>
      if Nat.eqb statusCode 0 then
        Some {| httpStatus := 500;
                body := ErrorBody "INTERNAL_SERVER_ERROR" "Internal server error" [] |}
      else
        Some {| httpStatus := statusCode;
                body := ErrorBody (if String.eqb code EmptyString then "APPLICATION_ERROR" else code)
                          message [] |}
  | JsError _ | TypeError | MissingSchemaError _ =>
      Some {| httpStatus := 500;
              body := ErrorBody "INTERNAL_SERVER_ERROR" "Internal server error" [] |}
  | StorageError _ => None
  end.


(** A controller followed by the middleware: the response the controller
    sent, or the handler's for the error given to [next(error)]. *)
Definition respond (r : Result Response) : option Response :=
  match r with
  | Ok response => Some response
  | Throw err => errorHandler err
  end.

(** ** Admin controllers (controllers/lessonController.js)

    A controller ends by sending a response or, for whatever its [try]
    block throws, by [next(error)]. *)

Definition notFound {A} : M Store A :=
  throw (AppError "Lesson not found" 404 "RESOURCE_NOT_FOUND").

(** [POST /api/admin/lessons/:id/publish] *)
Definition publishLesson (e : Env) (id : ObjectId) : M Store Response :=
  let* lesson := Lesson_findById e id in
  match lesson with
  | None => notFound
  | Some lesson =>
      let* lesson := publish e lesson in
      res_json lesson
  end.

(** [POST /api/admin/lessons/:id/schedule].  [publishAt] is the body's
    field read through [new Date(...)]; [None] is a missing (falsy) field. *)
Definition scheduleLesson (e : Env) (id : ObjectId) (publishAt : option JsDate)
    : M Store Response :=
  match publishAt with
  | None => throw (AppError "Publish date is required" 400 "VALIDATION_ERROR")
  | Some d =>
      let* lesson := Lesson_findById e id in
      match lesson with
      | None => notFound
      | Some lesson =>
          let* lesson := schedule e (Some d) lesson in
          res_json lesson
      end
  end.

(** [POST /api/admin/lessons/:id/archive] *)
Definition archiveLesson (e : Env) (id : ObjectId) : M Store Response :=
  let* lesson := Lesson_findById e id in
  match lesson with
  | None => notFound
  | Some lesson =>
      let* lesson := archive e lesson in
      res_json lesson
  end.

(** ** Calls beyond those of the lifecycle

    For these the environment also supplies the error object a rejected
    call rejects with. *)

Inductive ModelCall :=
| LessonFindByIdAndDelete   (* Lesson.findByIdAndDelete(id) *)
| TermFindByIdAndDelete     (* Term.findByIdAndDelete(id) *)
| LessonCountDocuments      (* Lesson.countDocuments(filter) *)
| TermFind.                 (* Term.find(filter) *)

Record CallEnv := {
  request : Env;
  rejects : ModelCall → option Error
}.

Definition awaitCall {S A} (e : CallEnv) (call : ModelCall) (m : M S A) : M S A :=
  match rejects e call with
  | Some err => throw err
  | None => m
  end.

(** The documents of the lesson collection, in the collection's order. *)
Definition allLessons (s : Store) : list Lesson.t :=
  List.map snd (map_to_list (lessons s)).

Definition allTerms (s : Store) : list Term.t :=
  List.map snd (map_to_list (terms s)).

(** The order of [.sort({ lessonNumber: 1 })]. *)
Definition byLessonNumber (a b : Lesson.t) : Prop :=
  (Lesson.lessonNumber a ≤ Lesson.lessonNumber b)%nat.

#[global] Instance byLessonNumber_dec a b : Decision (byLessonNumber a b).
Proof. unfold byLessonNumber. apply _. Defined.

(** The filter [{ termId }]. *)
Definition inTerm (termId : ObjectId) (l : Lesson.t) : bool :=
  bool_decide (Lesson.termId l = termId).

(** [Lesson.find({ termId }).sort({ lessonNumber: 1 })] *)
Definition Lesson_findByTerm (e : Env) (termId : ObjectId) : M Store (list Lesson.t) :=
  await e LessonFind
    (λ s, (s, Ok (merge_sort byLessonNumber
                    (List.filter (inTerm termId) (allLessons s))))).

(** [Lesson.findByIdAndDelete(id)] *)
Definition Lesson_findByIdAndDelete (e : CallEnv) (id : ObjectId) : M Store unit :=
  awaitCall e LessonFindByIdAndDelete
    (modify (λ s, setLessons s (delete id (lessons s)))).

(** [Term.findByIdAndDelete(id)] *)
Definition Term_findByIdAndDelete (e : CallEnv) (id : ObjectId) : M Store unit :=
  awaitCall e TermFindByIdAndDelete
    (modify (λ s, setTerms s (delete id (terms s)))).

(** [Lesson.countDocuments(filter)] *)
Definition Lesson_countDocuments (e : CallEnv) (filter : Lesson.t → bool)
    : M Store nat :=
  awaitCall e LessonCountDocuments
    (λ s, (s, Ok (length (List.filter filter (allLessons s))))).

(** ** Controllers without a lifecycle effect *)

(** [GET /api/admin/terms/:termId/lessons] *)
Definition getLessons (e : Env) (termId : ObjectId) : M Store Response :=
  let* term := Term_findById e termId in
  match term with
  | None => throw (AppError "Term not found" 404 "RESOURCE_NOT_FOUND")
  | Some _ =>
      let* lessons := Lesson_findByTerm e termId in
      res_json_lessons lessons
  end.

(** [GET /api/admin/lessons/:id] *)
Definition getLesson (e : Env) (id : ObjectId) : M Store Response :=
  let* lesson := Lesson_findById e id in
  match lesson with
  | None => notFound
  | Some lesson => res_json lesson
  end.

(** [DELETE /api/admin/lessons/:id], which answers 204 without a body. *)
Definition deleteLesson (e : CallEnv) (id : ObjectId) : M Store unit :=
  let* lesson := Lesson_findById (request e) id in
  match lesson with
  | None => notFound
  | Some _ => Lesson_findByIdAndDelete e id
  end.

(** [DELETE /api/admin/terms/:id], which answers 204 without a body. *)
Definition deleteTerm (e : CallEnv) (id : ObjectId) : M Store unit :=
  let* term := Term_findById (request e) id in
  match term with
  | None => throw (AppError "Term not found" 404 "RESOURCE_NOT_FOUND")
  | Some _ => Term_findByIdAndDelete e id
  end.

(** ** Counting methods (models/Term.js, models/Program.js) *)

(** [termSchema.methods.getLessonsCount] *)
Definition Term_getLessonsCount (e : CallEnv) (this : Term.t) : M Store nat :=
  Lesson_countDocuments e (inTerm (Term._id this)).

(** The filter [{ termId, status: 'published' }]. *)
Definition publishedInTerm (termId : ObjectId) (l : Lesson.t) : bool :=
  inTerm termId l && bool_decide (Lesson.status l = Lesson.published).

(** [termSchema.methods.getPublishedLessonsCount] *)
Definition Term_getPublishedLessonsCount (e : CallEnv) (this : Term.t)
    : M Store nat :=
  Lesson_countDocuments e (publishedInTerm (Term._id this)).

(** The filter [{ termId: { $in: termIds }, status: 'published' }]. *)
Definition publishedInTerms (termIds : list ObjectId) (l : Lesson.t) : bool :=
  existsb (Nat.eqb (Lesson.termId l)) termIds
  && bool_decide (Lesson.status l = Lesson.published).

(** [programSchema.methods.getPublishedLessonsCount] *)
Definition Program_getPublishedLessonsCount (e : CallEnv) (this : Program.t)
    : M Store nat :=
  let* terms :=
    awaitCall e TermFind
      (λ s, (s, Ok (List.filter
                      (λ term, bool_decide (Term.programId term = Program._id this))
                      (allTerms s)))) in
  let termIds := List.map Term._id terms in
  Lesson_countDocuments e (publishedInTerms termIds).

(** ** The publishing worker (worker/src/index.js) *)

Module Worker.
(** [lessonSchema.methods.validateAssets] of worker/src/models/Lesson.js:
    the method of the API's model, run in the worker process. *)
Definition validateAssets (e : Env) (this : Lesson.t) : M Store AssetValidation :=
  mongoose_model workerModels "LessonAsset" ;;
  let* assets := LessonAsset_find e (Lesson._id this)
                   (Lesson.contentLanguagePrimary this) "thumbnail" in
  ret (checkVariants assets).
End Worker.

(** What the worker writes to its log, by call site. *)
Inductive LogEntry :=
| Starting
    (* info: Starting scheduled lesson processing *)
| FoundLessons (count : nat)
    (* info: Found N lessons ready for publishing *)
| StatusChanged (lessonId : ObjectId) (currentStatus : option Lesson.Status)
    (* warn: Lesson status changed during processing *)
| MissingAssets (lessonId : ObjectId) (missingAssets : list string)
    (* error: Cannot publish lesson due to missing assets *)
| AutoPublishedProgram (programId : ObjectId)
    (* info: Auto-published parent program *)
| PublishedLesson (lessonId : ObjectId) (publishedAt : Z)
    (* info: Successfully published lesson *)
| ProcessingError (lessonId : ObjectId) (error : Error)
    (* error: Error processing lesson *)
| Completed (totalFound processed errors : nat)
    (* info: Completed scheduled lesson processing *)
| RunError (error : Error).
    (* error: Error in scheduled lesson processing *)

(** The database together with the local variables of one run.  Only [db]
    is under the transaction; the counters and the log are plain
    JavaScript state. *)
Record WorkerState := {
  db : Store;
  processedCount : nat;
  errorCount : nat;
  logged : list LogEntry
}.

Definition setDb (w : WorkerState) (s : Store) : WorkerState :=
  {| db := s; processedCount := processedCount w;
     errorCount := errorCount w; logged := logged w |}.

Definition liftDb {A} (m : M Store A) : M WorkerState A :=
  λ w, let (s', r) := m (db w) in (setDb w s', r).

Definition logger (entry : LogEntry) : M WorkerState unit :=
  modify (λ w, {| db := db w; processedCount := processedCount w;
                  errorCount := errorCount w;
                  logged := logged w ++ [entry] |}).

(** [processedCount++] *)
Definition incrProcessedCount : M WorkerState unit :=
  modify (λ w, {| db := db w; processedCount := S (processedCount w);
                  errorCount := errorCount w; logged := logged w |}).

(** [errorCount++] *)
Definition incrErrorCount : M WorkerState unit :=
  modify (λ w, {| db := db w; processedCount := processedCount w;
                  errorCount := S (errorCount w); logged := logged w |}).

(** [session.withTransaction(callback)]: commits when the callback returns,
    and aborts, undoing the callback's writes, when it throws. *)
Definition withTransaction {A} (callback : M WorkerState A) : M WorkerState A :=
  λ w, match callback w with
       | (w', Ok a) => (w', Ok a)
       | (w', Throw e) => (setDb w' (db w), Throw e)
       end.

(** The filter [{ status: 'scheduled', publishAt: { $lte: now } }]. *)
Definition isDue (current : Z) (l : Lesson.t) : bool :=
  bool_decide (Lesson.status l = Lesson.scheduled)
  && match Lesson.publishAt l with
     | Some t => bool_decide (t ≤ current)%Z
     | None => false
     end.

(** The order of [.sort({ publishAt: 1 })]. *)
Definition byPublishAt (a b : Lesson.t) : Prop :=
  (default 0 (Lesson.publishAt a) ≤ default 0 (Lesson.publishAt b))%Z.

#[global] Instance byPublishAt_dec a b : Decision (byPublishAt a b).
Proof. unfold byPublishAt. apply _. Defined.

(** [Lesson.find({ status: 'scheduled', publishAt: { $lte: now } })
       .sort({ publishAt: 1 })] *)
Definition Lesson_findDue (e : Env) : M Store (list Lesson.t) :=
  await e LessonFind
    (λ s, (s, Ok (merge_sort byPublishAt
                    (List.filter (isDue (now e))
                       (List.map snd (map_to_list (lessons s))))))).

(** The callback handed to [withTransaction] for one found lesson. *)
Definition publishTransaction (e : Env) (lesson : Lesson.t) : M WorkerState unit :=
  let* currentLesson := liftDb (Lesson_findById e (Lesson._id lesson)) in
  match currentLesson with
  | None => logger (StatusChanged (Lesson._id lesson) None)
  | Some currentLesson =>
      if decide (Lesson.status currentLesson ≠ Lesson.scheduled) then
        logger (StatusChanged (Lesson._id lesson)
                  (Some (Lesson.status currentLesson)))
      else
        let* assetValidation := liftDb (Worker.validateAssets e currentLesson) in
        if negb (isValid assetValidation) then
          logger (MissingAssets (Lesson._id lesson)
                    (missingVariants assetValidation)) ;;
          incrErrorCount
        else
          let currentLesson' :=
            Lesson.assign currentLesson Lesson.published None (Some (now e)) in
          let* currentLesson' := liftDb (Lesson_save e currentLesson') in
          let* term := liftDb (Term_findById e (Lesson.termId currentLesson')) in
          match term with
          | Some term =>
              let* program := liftDb (Program_findById e (Term.programId term)) in
              match program with
              | Some program =>
                  if decide (Program.status program = Program.draft) then
                    liftDb (Program_save e
                      (Program.assign program Program.published
                         (match Program.publishedAt program with
                          | Some d => Some d
                          | None => Some (nowCascade e)
                          end))) ;;
                    logger (AutoPublishedProgram (Program._id program))
                  else ret tt
              | None => ret tt
              end
          | None => ret tt
          end ;;
          logger (PublishedLesson (Lesson._id lesson) (now e)) ;;
          incrProcessedCount
  end.

(** The body of the [for] loop: one lesson, its session, its transaction
    and the [catch] around both. *)
Definition processLesson (e : Env) (lesson : Lesson.t) : M WorkerState unit :=
  tryCatch
    (await e StartSession (ret tt) ;;
     withTransaction (publishTransaction e lesson) ;;
     await e EndSession (ret tt))
    (λ error,
       logger (ProcessingError (Lesson._id lesson) error) ;;
       incrErrorCount).

(** [for (const lesson of scheduledLessons) { ... }] *)
Fixpoint forEach {S A} (l : list A) (body : A → M S unit) : M S unit :=
  match l with
  | [] => ret tt
  | x :: rest => body x ;; forEach rest body
  end.

(** The environment of one run: that of the scan, and that of each
    lesson's processing. *)
Record TickEnv := {
  scan : Env;
  perLesson : ObjectId → Env
}.

Definition loop (te : TickEnv) (scheduledLessons : list Lesson.t)
    : M WorkerState unit :=
  forEach scheduledLessons
    (λ lesson, processLesson (perLesson te (Lesson._id lesson)) lesson).

Definition logCompleted (totalFound : nat) : M WorkerState unit :=
  λ w, logger (Completed totalFound (processedCount w) (errorCount w)) w.

(** [processScheduledLessons] as a computation over the worker state. *)
Definition tick (te : TickEnv) : M WorkerState unit :=
  tryCatch
    (logger Starting ;;
     let* scheduledLessons := liftDb (Lesson_findDue (scan te)) in
     logger (FoundLessons (length scheduledLessons)) ;;
     loop te scheduledLessons ;;
     logCompleted (length scheduledLessons))
    (λ error, logger (RunError error)).

(** The worker state at the start of a run: [let processedCount = 0;
    let errorCount = 0;]. *)
Definition freshWorker (s : Store) : WorkerState :=
  {| db := s; processedCount := 0; errorCount := 0; logged := [] |}.

(** One run of [processScheduledLessons] from a database. *)
Definition processScheduledLessons (te : TickEnv) (s : Store) : WorkerState :=
  fst (tick te (freshWorker s)).


(** * Vocabulary of the properties *)

(** The lesson has a thumbnail of the given variant for its primary content
    language. *)
Definition hasThumbnail (s : Store) (l : Lesson.t) (variant : string) : Prop :=
  ∃ a, In a (lessonAssets s)
       ∧ LessonAsset.lessonId a = Lesson._id l
       ∧ LessonAsset.language a = Lesson.contentLanguagePrimary l
       ∧ LessonAsset.assetType a = "thumbnail"
       ∧ LessonAsset.variant a = variant.

(** What [validateAssets] computes for a lesson when its query succeeds. *)
Definition assetCheck (s : Store) (l : Lesson.t) : AssetValidation :=
  checkVariants
    (List.filter
       (assetMatches (Lesson._id l) (Lesson.contentLanguagePrimary l) "thumbnail")
       (lessonAssets s)).

(** The document [save()] stores for a lesson read as [l] and then
    assigned a status, a [publishAt] and a [publishedAt]. *)
Definition saved (e : Env) (l : Lesson.t) (st : Lesson.Status) (pa pd : option Z)
    : Lesson.t :=
  Lesson_timestamps e (Some l) (Lesson.assign l st pa pd).

(** The document [save()] stores for a program read as [p] and then
    assigned a status and a [publishedAt]. *)
Definition savedProgram (e : Env) (p : Program.t) (st : Program.Status)
    (pd : option Z) : Program.t :=
  Program_timestamps e (Some p) (Program.assign p st pd).

(** The two schema validators of the lifecycle fields, read as a property
    of a document: a scheduled lesson has a [publishAt], a published one a
    [publishedAt]. *)
Definition validatorsHold (l : Lesson.t) : Prop :=
  (Lesson.status l = Lesson.scheduled → is_Some (Lesson.publishAt l))
  ∧ (Lesson.status l = Lesson.published → is_Some (Lesson.publishedAt l)).

(** The converse directions: a date that is present names the status. *)
Definition datesNameStatus (l : Lesson.t) : Prop :=
  (is_Some (Lesson.publishAt l) → Lesson.status l = Lesson.scheduled)
  ∧ (is_Some (Lesson.publishedAt l) → Lesson.status l = Lesson.published).

(** The lifecycle invariant the operations maintain: the validators always,
    the converses for every lesson that is not archived. *)
Definition lifecycleOk (l : Lesson.t) : Prop :=
  validatorsHold l ∧ (Lesson.status l ≠ Lesson.archived → datesNameStatus l).

(** [l'] is [l] with possibly another status and nothing else changed. *)
Definition sameExceptStatus (l l' : Lesson.t) : Prop :=
  l' = Lesson.assign l (Lesson.status l') (Lesson.publishAt l) (Lesson.publishedAt l).

(** [l'] is [l] with possibly another status and another [updatedAt], and
    nothing else changed. *)
Definition sameExceptStatusAndUpdatedAt (l l' : Lesson.t) : Prop :=
  l' = Lesson.touch
         (Lesson.assign l (Lesson.status l') (Lesson.publishAt l)
            (Lesson.publishedAt l))
         (Lesson.updatedAt l').

Definition storeOk (s : Store) : Prop :=
  map_Forall (λ _ l, lifecycleOk l) (lessons s).

(** Every document is stored under its own [_id]. *)
Definition wfStore (s : Store) : Prop :=
  map_Forall (λ k l, Lesson._id l = k) (lessons s)
  ∧ map_Forall (λ k p, Program._id p = k) (programs s).

(** A lifecycle request, with the environment it runs in. *)
Inductive Request :=
| PublishNow (e : Env) (id : ObjectId)
| Schedule (e : Env) (id : ObjectId) (publishAt : option JsDate)
| Archive (e : Env) (id : ObjectId)
| WorkerRun (te : TickEnv).

(** The database after one request, whether it succeeded or threw. *)
Definition step (s : Store) (r : Request) : Store :=
  match r with
  | PublishNow e id => fst (publishLesson e id s)
  | Schedule e id publishAt => fst (scheduleLesson e id publishAt s)
  | Archive e id => fst (archiveLesson e id s)
  | WorkerRun te => db (processScheduledLessons te s)
  end.

Definition run (s : Store) (rs : list Request) : Store :=
  fold_left step rs s.

(** [m] keeps an invariant of the state, whatever it returns or throws. *)
Definition preserves {S A} (I : S → Prop) (m : M S A) : Prop :=
  ∀ s, I s → I (fst (m s)).

(** The due lessons of a database at a time. *)
Definition dueAt (s : Store) (current : Z) (l : Lesson.t) : Prop :=
  (∃ k, lessons s !! k = Some l)
  ∧ Lesson.status l = Lesson.scheduled
  ∧ ∃ t, Lesson.publishAt l = Some t ∧ (t ≤ current)%Z.

(** The list the scan of a run returns from a database at a time. *)
Definition dueLessons (s : Store) (current : Z) : list Lesson.t :=
  merge_sort byPublishAt (List.filter (isDue current) (allLessons s)).

(** The worker state when the loop starts on the lessons found. *)
Definition loopStart (s : Store) (found : list Lesson.t) : WorkerState :=
  {| db := s; processedCount := 0; errorCount := 0;
     logged := [Starting; FoundLessons (length found)] |}.

(** A controller from the method it calls: the database is the method's,
    and so is the error if the method throws; what the method returns is
    lost to the serialisation of the response. *)
Definition answered (r : Store * Result Lesson.t) : Store * Result Response :=
  match r with
  | (s', Ok _) => (s', Throw TypeError)
  | (s', Throw err) => (s', Throw err)
  end.


(** What the loop body does to the worker state: it leaves the database
    and the count of processed lessons, counts at most one error and logs
    a changed status or an error. *)
Definition lessonFrame (lesson : Lesson.t) (w w' : WorkerState) : Prop :=
  db w' = db w
  ∧ processedCount w' = processedCount w
  ∧ ((errorCount w' = errorCount w
      ∧ (logged w' = logged w
         ∨ ∃ st, logged w' = (logged w ++ [StatusChanged (Lesson._id lesson) st])%list))
     ∨ ∃ err, errorCount w' = S (errorCount w)
              ∧ (logged w' = (logged w ++ [ProcessingError (Lesson._id lesson) err])%list
                 ∨ ∃ st, logged w' =
                           ((logged w ++ [StatusChanged (Lesson._id lesson) st])
                            ++ [ProcessingError (Lesson._id lesson) err])%list)).

(** The entries a run writes for the lessons it goes through. *)
Definition lessonEntry (entry : LogEntry) : Prop :=
  match entry with
  | StatusChanged _ _ | ProcessingError _ _ => True
  | _ => False
  end.

(** ** Sample data *)

Definition sampleLesson (st : Lesson.Status) (pa pd : option Z) : Lesson.t :=
  {| Lesson._id := 1; Lesson.termId := 10; Lesson.lessonNumber := 1;
     Lesson.title := "Intro"; Lesson.contentType := Lesson.article;
     Lesson.durationMs := None; Lesson.isPaid := false;
     Lesson.contentLanguagePrimary := "en";
     Lesson.contentLanguagesAvailable := ["en"];
     Lesson.contentUrlsByLanguage := {["en" := "https://cdn/intro"]};
     Lesson.subtitleLanguages := []; Lesson.subtitleUrlsByLanguage := ∅;
     Lesson.status := st; Lesson.publishAt := pa; Lesson.publishedAt := pd;
     Lesson.createdAt := 100; Lesson.updatedAt := 800 |}.

Definition sampleTerm : Term.t :=
  {| Term._id := 10; Term.programId := 100; Term.termNumber := 1;
     Term.title := None |}.

Definition sampleProgram (st : Program.Status) (pd : option Z) : Program.t :=
  {| Program._id := 100; Program.title := "Course"; Program.description := None;
     Program.youtubeUrl := None; Program.youtubeVideoId := None;
     Program.thumbnail := "https://cdn/course"; Program.customThumbnail := false;
     Program.languagePrimary := "en"; Program.languagesAvailable := ["en"];
     Program.status := st; Program.publishedAt := pd; Program.topicIds := [];
     Program.difficulty := Program.beginner; Program.duration := None;
     Program.price := 0; Program.tags := [];
     Program.createdAt := 50; Program.updatedAt := 500 |}.

Definition thumbnail (variant : string) : LessonAsset.t :=
  {| LessonAsset.lessonId := 1; LessonAsset.language := "en";
     LessonAsset.variant := variant; LessonAsset.assetType := "thumbnail";
     LessonAsset.url := "https://cdn/thumb" |}.

Definition sampleStore (l : Lesson.t) (p : Program.t)
    (assets : list LessonAsset.t) : Store :=
  {| lessons := {[1 := l]}; terms := {[10 := sampleTerm]};
     programs := {[100 := p]}; lessonAssets := assets |}.

Definition bothThumbnails : list LessonAsset.t :=
  [thumbnail "portrait"; thumbnail "landscape"].

Definition draftLesson : Lesson.t := sampleLesson Lesson.draft None None.
Definition scheduledLesson : Lesson.t :=
  sampleLesson Lesson.scheduled (Some 900%Z) None.
Definition publishedLesson : Lesson.t :=
  sampleLesson Lesson.published None (Some 950%Z).
Definition archivedLesson : Lesson.t := sampleLesson Lesson.archived None None.

Definition draftProgram : Program.t := sampleProgram Program.draft None.
Definition publishedProgram : Program.t :=
  sampleProgram Program.published (Some 500%Z).

(** A draft lesson whose landscape thumbnail is missing. *)
Definition storeMissingLandscape : Store :=
  sampleStore draftLesson draftProgram [thumbnail "portrait"].

(** A scheduled, due lesson whose landscape thumbnail was deleted. *)
Definition storeDueMissingLandscape : Store :=
  sampleStore scheduledLesson draftProgram [thumbnail "portrait"].

Definition storeDraft : Store := sampleStore draftLesson draftProgram bothThumbnails.
Definition storeDue : Store := sampleStore scheduledLesson draftProgram bothThumbnails.
Definition storeArchived : Store :=
  sampleStore archivedLesson draftProgram bothThumbnails.
Definition storePublished : Store :=
  sampleStore publishedLesson publishedProgram bothThumbnails.
Definition storePublishedProgram : Store :=
  sampleStore draftLesson publishedProgram bothThumbnails.

(** No database call rejects; the clock reads 1000, 1001, 1002, 1003. *)
Definition quietEnv : Env :=
  {| fails := λ _, false; now := 1000; nowSaved := 1001;
     nowCascade := 1002; nowCascadeSaved := 1003 |}.


(** An environment after [quietEnv]: no call rejects; the clock reads 3000
    to 3003. *)
Definition laterEnv : Env :=
  {| fails := λ _, false; now := 3000; nowSaved := 3001;
     nowCascade := 3002; nowCascadeSaved := 3003 |}.

Definition quietTick (e : Env) : TickEnv :=
  {| scan := e; perLesson := λ _, e |}.

(** No call rejects, with or without an error object. *)
Definition quietCalls : CallEnv :=
  {| request := quietEnv; rejects := λ _, None |}.

(** * Properties *)

(** ** Asset completeness *)

Lemma includes_In (l : list string) (x : string) :
  includes l x = true ↔ In x l.
Proof.
  unfold includes. rewrite existsb_exists. split.
  - intros (y & Hy & Heq). apply String.eqb_eq in Heq. by subst.
  - intros Hx. exists x. split; [done | apply String.eqb_refl].
Qed.

Lemma assetMatches_true lessonId language assetType a :
  assetMatches lessonId language assetType a = true ↔
  LessonAsset.lessonId a = lessonId
  ∧ LessonAsset.language a = language
  ∧ LessonAsset.assetType a = assetType.
Proof.
  unfold assetMatches.
  rewrite !andb_true_iff, bool_decide_eq_true, !String.eqb_eq. tauto.
Qed.

Lemma available_hasThumbnail s l v :
  includes
    (List.map LessonAsset.variant
       (List.filter
          (assetMatches (Lesson._id l) (Lesson.contentLanguagePrimary l) "thumbnail")
          (lessonAssets s))) v = true
  ↔ hasThumbnail s l v.
Proof.
  rewrite includes_In, in_map_iff. unfold hasThumbnail. split.
  - intros (a & Hv & Ha). apply filter_In in Ha as [Hin Hm].
    apply assetMatches_true in Hm. exists a. tauto.
  - intros (a & Hin & H1 & H2 & H3 & Hv). exists a. split; [done |].
    apply filter_In. split; [done |]. apply assetMatches_true. tauto.
Qed.

Lemma missingVariants_spec s l v :
  In v (missingVariants (assetCheck s l)) ↔
  In v requiredVariants ∧ ¬ hasThumbnail s l v.
Proof.
  unfold assetCheck, checkVariants. cbn [missingVariants].
  rewrite filter_In, negb_true_iff, <- not_true_iff_false.
  by rewrite available_hasThumbnail.
Qed.

Lemma hasThumbnail_dec s l v : hasThumbnail s l v ∨ ¬ hasThumbnail s l v.
Proof.
  rewrite <- available_hasThumbnail.
  destruct (includes _ v); [by left | by right].
Qed.

Lemma isValid_spec s l :
  isValid (assetCheck s l) = true ↔
  hasThumbnail s l "portrait" ∧ hasThumbnail s l "landscape".
Proof.
  pose proof (missingVariants_spec s l) as Hm.
  assert (Hv : isValid (assetCheck s l) = true ↔ missingVariants (assetCheck s l) = []).
  { unfold assetCheck, checkVariants. cbn [isValid missingVariants].
    rewrite Nat.eqb_eq. apply length_zero_iff_nil. }
  rewrite Hv. split.
  - intros Hnil. rewrite Hnil in Hm. split.
    + destruct (hasThumbnail_dec s l "portrait") as [?|Hn]; [done |].
      exfalso. apply (Hm "portrait"). split; [cbn; tauto | done].
    + destruct (hasThumbnail_dec s l "landscape") as [?|Hn]; [done |].
      exfalso. apply (Hm "landscape"). split; [cbn; tauto | done].
  - intros [Hp Hl].
    destruct (missingVariants (assetCheck s l)) as [|v rest] eqn:E; [done |].
    exfalso. destruct (proj1 (Hm v) (or_introl eq_refl)) as [Hreq Hno].
    cbn in Hreq. destruct Hreq as [<-|[<-|[]]]; tauto.
Qed.

Lemma isValid_thumbnails s l :
  hasThumbnail s l "portrait" → hasThumbnail s l "landscape" →
  isValid (assetCheck s l) = true.
Proof. intros Hp Hl. by apply isValid_spec. Qed.

Lemma message_invalid s l :
  isValid (assetCheck s l) = false →
  message (assetCheck s l) =
    "Missing required thumbnail variants: "
    ++ String.concat ", " (missingVariants (assetCheck s l)).
Proof.
  unfold assetCheck, checkVariants. cbn [isValid missingVariants message].
  intros Hlen. destruct (List.filter _ requiredVariants); [discriminate | done].
Qed.

(** ** Timestamps *)

Lemma Lesson_touch_updatedAt l : Lesson.touch l (Lesson.updatedAt l) = l.
Proof. by destruct l. Qed.

Lemma Program_touch_updatedAt p : Program.touch p (Program.updatedAt p) = p.
Proof. by destruct p. Qed.

(** The hook changes [updatedAt] at most. *)
Lemma Lesson_timestamps_touch e stored doc :
  Lesson_timestamps e stored doc
  = Lesson.touch doc (Lesson.updatedAt (Lesson_timestamps e stored doc)).
Proof.
  unfold Lesson_timestamps. destruct (decide _); [| done].
  by rewrite Lesson_touch_updatedAt.
Qed.

Lemma Program_timestamps_touch e stored doc :
  Program_timestamps e stored doc
  = Program.touch doc (Program.updatedAt (Program_timestamps e stored doc)).
Proof.
  unfold Program_timestamps. destruct (decide _); [| done].
  by rewrite Program_touch_updatedAt.
Qed.

Lemma Lesson_timestamps_id e stored doc :
  Lesson._id (Lesson_timestamps e stored doc) = Lesson._id doc.
Proof. by rewrite Lesson_timestamps_touch. Qed.

Lemma Lesson_timestamps_termId e stored doc :
  Lesson.termId (Lesson_timestamps e stored doc) = Lesson.termId doc.
Proof. by rewrite Lesson_timestamps_touch. Qed.

Lemma Lesson_timestamps_status e stored doc :
  Lesson.status (Lesson_timestamps e stored doc) = Lesson.status doc.
Proof. by rewrite Lesson_timestamps_touch. Qed.

Lemma Lesson_timestamps_publishAt e stored doc :
  Lesson.publishAt (Lesson_timestamps e stored doc) = Lesson.publishAt doc.
Proof. by rewrite Lesson_timestamps_touch. Qed.

Lemma Lesson_timestamps_publishedAt e stored doc :
  Lesson.publishedAt (Lesson_timestamps e stored doc) = Lesson.publishedAt doc.
Proof. by rewrite Lesson_timestamps_touch. Qed.

Lemma Program_timestamps_id e stored doc :
  Program._id (Program_timestamps e stored doc) = Program._id doc.
Proof. by rewrite Program_timestamps_touch. Qed.

Lemma Program_timestamps_status e stored doc :
  Program.status (Program_timestamps e stored doc) = Program.status doc.
Proof. by rewrite Program_timestamps_touch. Qed.

Lemma Program_timestamps_publishedAt e stored doc :
  Program.publishedAt (Program_timestamps e stored doc) = Program.publishedAt doc.
Proof. by rewrite Program_timestamps_touch. Qed.

Create Rewrite HintDb timestamps.
#[global] Hint Rewrite Lesson_timestamps_id Lesson_timestamps_termId
  Lesson_timestamps_status Lesson_timestamps_publishAt
  Lesson_timestamps_publishedAt Program_timestamps_id
  Program_timestamps_status Program_timestamps_publishedAt : timestamps.

(** A document whose status changed is modified. *)
Lemma Lesson_timestamps_modified e l doc :
  Lesson.status doc ≠ Lesson.status l →
  Lesson_timestamps e (Some l) doc = Lesson.touch doc (nowSaved e).
Proof.
  intros Hst. unfold Lesson_timestamps. destruct (decide _) as [Heq|]; [| done].
  by simplify_eq.
Qed.

(** ** Running the primitives *)

Lemma await_ok {S A} e op (m : M S A) : fails e op = false → await e op m = m.
Proof. unfold await. by intros ->. Qed.

Lemma await_rejects {S A} e op (m : M S A) s :
  fails e op = true → await e op m s = (s, Throw (StorageError op)).
Proof. unfold await. by intros ->. Qed.

Lemma Lesson_findById_run e id s :
  fails e LessonFindById = false →
  Lesson_findById e id s = (s, Ok (lessons s !! id)).
Proof. intros H. unfold Lesson_findById. by rewrite await_ok. Qed.

Lemma validateAssets_run e l s :
  fails e LessonAssetFind = false →
  validateAssets e l s = (s, Ok (assetCheck s l)).
Proof.
  intros H. unfold validateAssets, bind.
  change (mongoose_model backendModels "LessonAsset" s) with (s, @Ok unit tt).
  unfold LessonAsset_find. by rewrite await_ok.
Qed.

(** In the worker the model of the assets was never registered. *)
Lemma Worker_validateAssets_run e l s :
  Worker.validateAssets e l s = (s, Throw (MissingSchemaError "LessonAsset")).
Proof. reflexivity. Qed.

Lemma Lesson_save_run e doc s :
  fails e LessonSave = false →
  Lesson_save e doc s =
    (setLessons s
       (<[Lesson._id doc := Lesson_timestamps e (lessons s !! Lesson._id doc) doc]>
          (lessons s)),
     Ok (Lesson_timestamps e (lessons s !! Lesson._id doc) doc)).
Proof. intros H. unfold Lesson_save. by rewrite await_ok. Qed.

Lemma Term_findById_run e id s :
  fails e TermFindById = false →
  Term_findById e id s = (s, Ok (terms s !! id)).
Proof. intros H. unfold Term_findById. by rewrite await_ok. Qed.

Lemma Program_findById_run e id s :
  fails e ProgramFindById = false →
  Program_findById e id s = (s, Ok (programs s !! id)).
Proof. intros H. unfold Program_findById. by rewrite await_ok. Qed.

Lemma Program_save_run e doc s :
  fails e ProgramSave = false →
  Program_save e doc s =
    (setPrograms s
       (<[Program._id doc := Program_timestamps e (programs s !! Program._id doc) doc]>
          (programs s)),
     Ok (Program_timestamps e (programs s !! Program._id doc) doc)).
Proof. intros H. unfold Program_save. by rewrite await_ok. Qed.

(** ** Serialising a lesson *)


Lemma res_json_run {S} lesson (s : S) : res_json lesson s = (s, Throw TypeError).
Proof. reflexivity. Qed.

Lemma res_json_lessons_run {S} lessons (s : S) :
  res_json_lessons lessons s =
    match lessons with
    | [] => (s, Ok {| httpStatus := 200; body := LessonsBody [] |})
    | _ :: _ => (s, Throw TypeError)
    end.
Proof. by destruct lessons. Qed.

Lemma publishLesson_run e id s l :
  fails e LessonFindById = false →
  lessons s !! id = Some l →
  publishLesson e id s = answered (publish e l s).
Proof.
  intros Hfind Hl. unfold publishLesson. unfold bind at 1.
  rewrite Lesson_findById_run, Hl by done. unfold bind, answered.
  by destruct (publish e l s) as [s' [l'|err]].
Qed.

Lemma scheduleLesson_run e id d s l :
  fails e LessonFindById = false →
  lessons s !! id = Some l →
  scheduleLesson e id (Some d) s = answered (schedule e (Some d) l s).
Proof.
  intros Hfind Hl. unfold scheduleLesson. unfold bind at 1.
  rewrite Lesson_findById_run, Hl by done. unfold bind, answered.
  by destruct (schedule e (Some d) l s) as [s' [l'|err]].
Qed.

Lemma archiveLesson_run e id s l :
  fails e LessonFindById = false →
  lessons s !! id = Some l →
  archiveLesson e id s = answered (archive e l s).
Proof.
  intros Hfind Hl. unfold archiveLesson. unfold bind at 1.
  rewrite Lesson_findById_run, Hl by done. unfold bind, answered.
  by destruct (archive e l s) as [s' [l'|err]].
Qed.

Lemma answered_fst r : fst (answered r) = fst r.
Proof. by destruct r as [s' [l'|err]]. Qed.

(** ** Publish with incomplete assets *)

(** C1.  When the lesson lacks the portrait or the landscape thumbnail of
    its primary content language, [publishLesson] throws the error whose
    message lists exactly the required variants that are missing, and the
    database (so the lesson's status and every other field) is as before. *)
Theorem publish_rejects_incomplete_assets e s id l :
  fails e LessonFindById = false →
  fails e LessonAssetFind = false →
  lessons s !! id = Some l →
  ¬ (hasThumbnail s l "portrait" ∧ hasThumbnail s l "landscape") →
  ∃ missing,
    (∀ v, In v missing ↔ In v ["portrait"; "landscape"] ∧ ¬ hasThumbnail s l v)
    ∧ publishLesson e id s =
        (s, Throw (JsError
              ("Cannot publish lesson: Missing required thumbnail variants: "
               ++ String.concat ", " missing))).
Proof.
  intros Hfind Hassets Hl Hmiss.
  exists (missingVariants (assetCheck s l)). split.
  - apply missingVariants_spec.
  - assert (Hv : isValid (assetCheck s l) = false).
    { apply not_true_iff_false. by rewrite isValid_spec. }
    rewrite (publishLesson_run e id s l) by done.
    unfold publish, bind. rewrite validateAssets_run by done.
    rewrite Hv. cbn [negb]. unfold throw, answered.
    by rewrite (message_invalid _ _ Hv).
Qed.

Lemma publish_rejects_incomplete_assets_witness :
  lessons storeMissingLandscape !! 1 = Some draftLesson
  ∧ ∃ missing,
      (∀ v, In v missing ↔
            In v ["portrait"; "landscape"]
            ∧ ¬ hasThumbnail storeMissingLandscape draftLesson v)
      ∧ publishLesson quietEnv 1 storeMissingLandscape =
          (storeMissingLandscape,
           Throw (JsError
                ("Cannot publish lesson: Missing required thumbnail variants: "
                 ++ String.concat ", " missing))).
Proof.
  split; [reflexivity |].
  apply (publish_rejects_incomplete_assets quietEnv storeMissingLandscape 1
           draftLesson); [reflexivity | reflexivity | reflexivity |].
  rewrite <- isValid_spec. vm_compute. discriminate.
Defined.

(** ** Schedule *)

Lemma schedule_not_future e s l t :
  (t ≤ now e)%Z →
  schedule e (Some (ValidDate t)) l s =
    (s, Throw (JsError "Publish date must be in the future")).
Proof.
  intros Hle. unfold schedule, notInFuture. by rewrite bool_decide_eq_true_2.
Qed.

Lemma schedule_future e s l t :
  fails e LessonSave = false →
  lessons s !! Lesson._id l = Some l →
  (now e < t)%Z →
  schedule e (Some (ValidDate t)) l s =
    (setLessons s
       (<[Lesson._id l := saved e l Lesson.scheduled (Some t) None]> (lessons s)),
     Ok (saved e l Lesson.scheduled (Some t) None)).
Proof.
  intros Hsave Hl Hlt. unfold schedule, notInFuture.
  rewrite bool_decide_eq_false_2 by lia.
  rewrite Lesson_save_run by done. cbn [Lesson.assign Lesson._id].
  by rewrite Hl.
Qed.

Lemma scheduleLesson_not_future e s id l t :
  fails e LessonFindById = false →
  lessons s !! id = Some l →
  (t ≤ now e)%Z →
  scheduleLesson e id (Some (ValidDate t)) s =
    (s, Throw (JsError "Publish date must be in the future")).
Proof.
  intros Hfind Hl Hle. rewrite (scheduleLesson_run e id _ s l) by done.
  by rewrite schedule_not_future.
Qed.

Lemma scheduleLesson_future e s id l t :
  fails e LessonFindById = false →
  fails e LessonSave = false →
  lessons s !! id = Some l →
  Lesson._id l = id →
  (now e < t)%Z →
  scheduleLesson e id (Some (ValidDate t)) s =
    (setLessons s
       (<[id := saved e l Lesson.scheduled (Some t) None]> (lessons s)),
     Throw TypeError).
Proof.
  intros Hfind Hsave Hl Hid Hlt. rewrite (scheduleLesson_run e id _ s l) by done.
  subst id. by rewrite schedule_future.
Qed.

(** C7.  A schedule request whose date is not after the current time throws
    before anything is written.  With a date strictly after it, the
    [schedule] method succeeds, and the request leaves the lesson stored
    as the method returned it: scheduled, with that date and without a
    [publishedAt]. *)
Theorem schedule_requires_future_date e s id l t :
  fails e LessonFindById = false →
  lessons s !! id = Some l →
  Lesson._id l = id →
  ((t ≤ now e)%Z →
     scheduleLesson e id (Some (ValidDate t)) s =
       (s, Throw (JsError "Publish date must be in the future")))
  ∧ ((now e < t)%Z → fails e LessonSave = false →
     ∃ l', schedule e (Some (ValidDate t)) l s =
             (setLessons s (<[id := l']> (lessons s)), Ok l')
           ∧ fst (scheduleLesson e id (Some (ValidDate t)) s) =
               setLessons s (<[id := l']> (lessons s))
           ∧ Lesson.status l' = Lesson.scheduled
           ∧ Lesson.publishAt l' = Some t
           ∧ Lesson.publishedAt l' = None).
Proof.
  intros Hfind Hl Hid. split.
  - intros Hle. by eapply scheduleLesson_not_future.
  - intros Hlt Hsave. exists (saved e l Lesson.scheduled (Some t) None).
    rewrite (scheduleLesson_future e s id l t) by done. subst id.
    rewrite schedule_future by done. unfold saved.
    by autorewrite with timestamps.
Qed.

Lemma schedule_requires_future_date_witness :
  lessons storeDraft !! 1 = Some draftLesson
  ∧ scheduleLesson quietEnv 1 (Some (ValidDate 1000)) storeDraft =
      (storeDraft, Throw (JsError "Publish date must be in the future"))
  ∧ ∃ l', schedule quietEnv (Some (ValidDate 1001)) draftLesson storeDraft =
             (setLessons storeDraft (<[1 := l']> (lessons storeDraft)), Ok l')
           ∧ fst (scheduleLesson quietEnv 1 (Some (ValidDate 1001)) storeDraft) =
               setLessons storeDraft (<[1 := l']> (lessons storeDraft))
           ∧ Lesson.status l' = Lesson.scheduled
           ∧ Lesson.publishAt l' = Some 1001%Z
           ∧ Lesson.publishedAt l' = None.
Proof.
  split; [reflexivity |]. split.
  - apply (schedule_requires_future_date quietEnv storeDraft 1 draftLesson 1000);
      [reflexivity | reflexivity | reflexivity | simpl; lia].
  - apply (schedule_requires_future_date quietEnv storeDraft 1 draftLesson 1001);
      [reflexivity | reflexivity | reflexivity | simpl; lia | reflexivity].
Defined.

(** C9 fails on the code: an archived lesson with a future date is
    scheduled by [scheduleLesson]. *)
Lemma archived_lesson_rescheduled_counterexample :
  lessons storeArchived !! 1 = Some archivedLesson
  ∧ Lesson.status archivedLesson = Lesson.archived
  ∧ (now quietEnv < 2000)%Z
  ∧ Lesson.status <$>
      lessons (fst (scheduleLesson quietEnv 1 (Some (ValidDate 2000)) storeArchived)) !! 1
    = Some Lesson.scheduled.
Proof. repeat split. Qed.

(** C9, amended.  [schedule] does not look at the current status: after a
    schedule request with a strictly future date, an archived lesson is
    stored as scheduled with that date. *)
Theorem schedule_accepts_archived_lesson e s id l t :
  fails e LessonFindById = false →
  fails e LessonSave = false →
  lessons s !! id = Some l →
  Lesson._id l = id →
  Lesson.status l = Lesson.archived →
  (now e < t)%Z →
  ∃ l', lessons (fst (scheduleLesson e id (Some (ValidDate t)) s)) !! id = Some l'
        ∧ Lesson.status l' = Lesson.scheduled
        ∧ Lesson.publishAt l' = Some t.
Proof.
  intros Hfind Hsave Hl Hid _ Hlt. eexists.
  rewrite (scheduleLesson_future e s id l t) by done.
  cbn [fst lessons setLessons]. rewrite lookup_insert_eq.
  split; [done |]. unfold saved. by autorewrite with timestamps.
Qed.

Lemma schedule_accepts_archived_lesson_witness :
  Lesson.status archivedLesson = Lesson.archived
  ∧ ∃ l', lessons (fst (scheduleLesson quietEnv 1 (Some (ValidDate 2000)) storeArchived)) !! 1
            = Some l'
          ∧ Lesson.status l' = Lesson.scheduled
          ∧ Lesson.publishAt l' = Some 2000%Z.
Proof.
  split; [reflexivity |].
  apply (schedule_accepts_archived_lesson quietEnv storeArchived 1 archivedLesson 2000);
    [reflexivity | reflexivity | reflexivity | reflexivity | reflexivity | simpl; lia].
Defined.

(** ** Archive *)

Lemma archive_run e s l :
  fails e LessonSave = false →
  lessons s !! Lesson._id l = Some l →
  archive e l s =
    (setLessons s
       (<[Lesson._id l := saved e l Lesson.archived (Lesson.publishAt l)
                            (Lesson.publishedAt l)]> (lessons s)),
     Ok (saved e l Lesson.archived (Lesson.publishAt l) (Lesson.publishedAt l))).
Proof.
  intros Hsave Hl. unfold archive. rewrite Lesson_save_run by done.
  cbn [Lesson.assign Lesson._id]. by rewrite Hl.
Qed.

Lemma archiveLesson_saved e s id l :
  fails e LessonFindById = false →
  fails e LessonSave = false →
  lessons s !! id = Some l →
  Lesson._id l = id →
  archiveLesson e id s =
    (setLessons s
       (<[id := saved e l Lesson.archived (Lesson.publishAt l)
                  (Lesson.publishedAt l)]> (lessons s)),
     Throw TypeError).
Proof.
  intros Hfind Hsave Hl Hid. rewrite (archiveLesson_run e id s l) by done.
  subst id. by rewrite archive_run.
Qed.

(** Archiving a lesson that is already archived assigns nothing new. *)
Lemma assign_archived_same l :
  Lesson.status l = Lesson.archived →
  Lesson.assign l Lesson.archived (Lesson.publishAt l) (Lesson.publishedAt l) = l.
Proof. destruct l. cbn. by intros ->. Qed.

Lemma saved_archived e l :
  sameExceptStatusAndUpdatedAt l
    (saved e l Lesson.archived (Lesson.publishAt l) (Lesson.publishedAt l))
  ∧ (Lesson.status l = Lesson.archived →
     saved e l Lesson.archived (Lesson.publishAt l) (Lesson.publishedAt l) = l)
  ∧ (Lesson.status l ≠ Lesson.archived →
     Lesson.updatedAt
       (saved e l Lesson.archived (Lesson.publishAt l) (Lesson.publishedAt l))
     = nowSaved e).
Proof.
  unfold saved, sameExceptStatusAndUpdatedAt. split; [| split].
  - rewrite Lesson_timestamps_status. cbn [Lesson.status Lesson.assign].
    apply Lesson_timestamps_touch.
  - intros Hst. rewrite (assign_archived_same l Hst).
    unfold Lesson_timestamps. by rewrite decide_True.
  - intros Hst. rewrite Lesson_timestamps_modified; [done |].
    cbn. congruence.
Qed.

(** C10 fails on the code as stated: archiving a scheduled lesson also
    changes its [updatedAt], which the schema's [timestamps] option sets
    whenever a modified document is saved. *)
Lemma archive_changes_updatedAt_counterexample :
  lessons storeDue !! 1 = Some scheduledLesson
  ∧ ∃ l', lessons (fst (archiveLesson quietEnv 1 storeDue)) !! 1 = Some l'
          ∧ Lesson.updatedAt scheduledLesson = 800%Z
          ∧ Lesson.updatedAt l' = 1001%Z
          ∧ ¬ sameExceptStatus scheduledLesson l'.
Proof.
  split; [reflexivity |]. eexists. split; [vm_compute; reflexivity |].
  split; [reflexivity |]. split; [reflexivity |].
  unfold sameExceptStatus. intros H.
  apply (f_equal Lesson.updatedAt) in H. discriminate H.
Qed.

(** C10, amended.  Whatever the environment, after [archiveLesson] the
    stored lesson differs from the one before in its status and its
    [updatedAt] at most: [publishAt], [publishedAt] and every other field
    are as they were, a lesson that was already archived is unchanged
    altogether, and no other document of the database changes.  When the
    calls succeed the status is archived, and [updatedAt] is the time of
    the save if the status changed. *)
Theorem archive_changes_status_and_updatedAt e s id l :
  lessons s !! id = Some l →
  Lesson._id l = id →
  ∃ l', lessons (fst (archiveLesson e id s)) !! id = Some l'
        ∧ sameExceptStatusAndUpdatedAt l l'
        ∧ Lesson.publishAt l' = Lesson.publishAt l
        ∧ Lesson.publishedAt l' = Lesson.publishedAt l
        ∧ (Lesson.status l = Lesson.archived → l' = l)
        ∧ (∀ k, k ≠ id → lessons (fst (archiveLesson e id s)) !! k = lessons s !! k)
        ∧ terms (fst (archiveLesson e id s)) = terms s
        ∧ programs (fst (archiveLesson e id s)) = programs s
        ∧ lessonAssets (fst (archiveLesson e id s)) = lessonAssets s
        ∧ (fails e LessonFindById = false → fails e LessonSave = false →
           Lesson.status l' = Lesson.archived
           ∧ (Lesson.status l ≠ Lesson.archived → Lesson.updatedAt l' = nowSaved e)).
Proof.
  intros Hl Hid.
  assert (Hsame : sameExceptStatusAndUpdatedAt l l).
  { unfold sameExceptStatusAndUpdatedAt. by destruct l. }
  destruct (fails e LessonFindById) eqn:Hfind.
  { unfold archiveLesson, bind, Lesson_findById. rewrite await_rejects by done.
    cbn [fst]. exists l. repeat split; try done. }
  rewrite (archiveLesson_run e id s l) by done. rewrite answered_fst.
  destruct (fails e LessonSave) eqn:Hsave.
  { unfold archive, Lesson_save. rewrite await_rejects by done.
    cbn [fst]. exists l. repeat split; try done. }
  subst id. rewrite archive_run by done.
  cbn [fst lessons terms programs lessonAssets setLessons].
  destruct (saved_archived e l) as (H1 & H2 & H3).
  eexists. split; [apply lookup_insert_eq |]. split; [exact H1 |].
  unfold saved. autorewrite with timestamps. cbn [Lesson.assign Lesson.publishAt
    Lesson.publishedAt Lesson.status].
  do 2 (split; [done |]). split; [exact H2 |].
  split; [intros k Hk; by rewrite lookup_insert_ne |].
  do 3 (split; [done |]). intros _ _. split; [done | exact H3].
Qed.

Lemma archive_changes_status_and_updatedAt_witness :
  lessons storeDue !! 1 = Some scheduledLesson
  ∧ ∃ l', lessons (fst (archiveLesson quietEnv 1 storeDue)) !! 1 = Some l'
        ∧ sameExceptStatusAndUpdatedAt scheduledLesson l'
        ∧ Lesson.publishAt l' = Some 900%Z
        ∧ Lesson.publishedAt l' = None
        ∧ Lesson.status l' = Lesson.archived
        ∧ Lesson.updatedAt l' = 1001%Z.
Proof.
  split; [reflexivity |].
  destruct (archive_changes_status_and_updatedAt quietEnv storeDue 1 scheduledLesson)
    as (l' & H1 & H2 & H3 & H4 & _ & _ & _ & _ & _ & H5);
    [reflexivity | reflexivity |].
  exists l'. destruct H5 as [H5 H6]; [reflexivity | reflexivity |].
  repeat split; try assumption. apply H6. discriminate.
Defined.

(** ** Publish now *)

(** [publish] up to the lesson's save, when the assets are complete: what
    remains is the cascade, run on the database with the lesson saved. *)
Lemma mongoose_model_registered {S} registered name (s : S) :
  includes registered name = true →
  mongoose_model registered name s = (s, Ok tt).
Proof. unfold mongoose_model. by intros ->. Qed.

Ltac publish_prefix e l Hl Hv :=
  unfold publish; unfold bind at 1; rewrite validateAssets_run by done;
  rewrite Hv; cbn [negb]; unfold bind at 1;
  rewrite Lesson_save_run by done;
  cbn [Lesson.assign Lesson._id]; rewrite Hl;
  fold (saved e l Lesson.published None (Some (now e)));
  unfold bind at 1; rewrite mongoose_model_registered by reflexivity;
  unfold bind at 1; rewrite mongoose_model_registered by reflexivity.

Lemma saved_termId e l st pa pd : Lesson.termId (saved e l st pa pd) = Lesson.termId l.
Proof. unfold saved. by autorewrite with timestamps. Qed.

Lemma publish_draft_program e s l term program :
  (∀ op, fails e op = false) →
  lessons s !! Lesson._id l = Some l →
  isValid (assetCheck s l) = true →
  terms s !! Lesson.termId l = Some term →
  programs s !! Term.programId term = Some program →
  Program._id program = Term.programId term →
  Program.status program = Program.draft →
  publish e l s =
    (setPrograms
       (setLessons s
          (<[Lesson._id l := saved e l Lesson.published None (Some (now e))]>
             (lessons s)))
       (<[Program._id program :=
            savedProgram e program Program.published
              (match Program.publishedAt program with
               | Some d => Some d
               | None => Some (nowCascade e)
               end)]> (programs s)),
     Ok (saved e l Lesson.published None (Some (now e)))).
Proof.
  intros Hok Hl Hv Hterm Hprog Hpid Hdraft.
  publish_prefix e l Hl Hv.
  unfold bind at 1. unfold bind at 1. rewrite Term_findById_run by done.
  cbn [terms setLessons]. rewrite saved_termId, Hterm.
  unfold bind at 1. rewrite Program_findById_run by done.
  cbn [programs setLessons]. rewrite Hprog.
  rewrite decide_True by done. unfold autoPublish. rewrite decide_True by done.
  unfold bind. rewrite Program_save_run by done.
  cbn [Program.assign Program._id programs setLessons].
  by rewrite Hpid, Hprog.
Qed.

Lemma publish_other_program e s l term program :
  (∀ op, fails e op = false) →
  lessons s !! Lesson._id l = Some l →
  isValid (assetCheck s l) = true →
  terms s !! Lesson.termId l = Some term →
  programs s !! Term.programId term = Some program →
  Program.status program ≠ Program.draft →
  publish e l s =
    (setLessons s
       (<[Lesson._id l := saved e l Lesson.published None (Some (now e))]>
          (lessons s)),
     Ok (saved e l Lesson.published None (Some (now e)))).
Proof.
  intros Hok Hl Hv Hterm Hprog Hdraft.
  publish_prefix e l Hl Hv.
  unfold bind at 1. unfold bind at 1. rewrite Term_findById_run by done.
  cbn [terms setLessons]. rewrite saved_termId, Hterm.
  unfold bind at 1. rewrite Program_findById_run by done.
  cbn [programs setLessons]. rewrite Hprog.
  by rewrite decide_False by done.
Qed.


Lemma publish_no_parent e s l :
  fails e LessonAssetFind = false →
  fails e LessonSave = false →
  fails e TermFindById = false →
  (terms s !! Lesson.termId l = None ∨ fails e ProgramFindById = false) →
  lessons s !! Lesson._id l = Some l →
  isValid (assetCheck s l) = true →
  (∀ term, terms s !! Lesson.termId l = Some term →
           programs s !! Term.programId term = None) →
  publish e l s =
    (setLessons s
       (<[Lesson._id l := saved e l Lesson.published None (Some (now e))]>
          (lessons s)),
     Ok (saved e l Lesson.published None (Some (now e)))).
Proof.
  intros Ha Hsave Htf Hpf Hl Hv Hnone.
  publish_prefix e l Hl Hv.
  unfold bind at 1. unfold bind at 1. rewrite Term_findById_run by done.
  cbn [terms setLessons]. rewrite saved_termId.
  destruct (terms s !! Lesson.termId l) as [term|] eqn:Hterm; [| done].
  destruct Hpf as [[=]|Hpf].
  unfold bind at 1. rewrite Program_findById_run by done.
  cbn [programs setLessons]. by rewrite (Hnone term eq_refl).
Qed.

Ltac unfold_db :=
  unfold Lesson_findById, Lesson_save, Term_findById, Program_findById,
    Program_save, LessonAsset_find, await, bind, ret, throw, modify.

(** Whatever happens in the cascade, it leaves the lessons, the terms and
    the assets alone; and it is the only part of [publish] that can still
    throw. *)
Lemma publish_lesson_saved e s l s' r :
  fails e LessonAssetFind = false →
  fails e LessonSave = false →
  lessons s !! Lesson._id l = Some l →
  isValid (assetCheck s l) = true →
  publish e l s = (s', r) →
  lessons s' =
    <[Lesson._id l := saved e l Lesson.published None (Some (now e))]> (lessons s)
  ∧ lessonAssets s' = lessonAssets s
  ∧ terms s' = terms s
  ∧ match r with
    | Ok l' => l' = saved e l Lesson.published None (Some (now e))
    | Throw err =>
        err = StorageError TermFindById ∨ err = StorageError ProgramFindById
        ∨ err = StorageError ProgramSave
    end.
Proof.
  intros Ha Hsave Hl Hv.
  publish_prefix e l Hl Hv.
  unfold autoPublish. unfold_db.
  repeat case_match; simplify_eq; intros [= <- <-]; cbn; tauto.
Qed.

(** C4.  With every call succeeding, [publish] on a lesson whose parent
    program is a draft returns and leaves that program published with a
    [publishedAt]; when the program is already published or archived,
    [publish] returns as well and the program collection is untouched.
    The program collection [publishLesson] leaves is that of [publish]. *)
Theorem publish_cascades_to_draft_program e s id l term program :
  (∀ op, fails e op = false) →
  lessons s !! id = Some l →
  Lesson._id l = id →
  hasThumbnail s l "portrait" →
  hasThumbnail s l "landscape" →
  terms s !! Lesson.termId l = Some term →
  programs s !! Term.programId term = Some program →
  Program._id program = Term.programId term →
  fst (publishLesson e id s) = fst (publish e l s)
  ∧ (Program.status program = Program.draft →
     ∃ l' p', publish e l s = (fst (publish e l s), Ok l')
           ∧ programs (fst (publish e l s)) !! Term.programId term = Some p'
           ∧ Program.status p' = Program.published
           ∧ is_Some (Program.publishedAt p')
           ∧ (∀ d, Program.publishedAt program = Some d →
                Program.publishedAt p' = Some d))
  ∧ (Program.status program ≠ Program.draft →
     ∃ l', publish e l s = (fst (publish e l s), Ok l')
           ∧ programs (fst (publish e l s)) = programs s).
Proof.
  intros Hok Hl Hid Hp Hls Hterm Hprog Hpid.
  assert (Hv : isValid (assetCheck s l) = true) by by apply isValid_spec.
  split.
  { rewrite (publishLesson_run e id s l) by done. apply answered_fst. }
  subst id. split; intros Hst.
  - rewrite (publish_draft_program e s l term program) by done.
    do 2 eexists. split; [reflexivity |]. cbn [fst programs setPrograms].
    rewrite Hpid, lookup_insert_eq. split; [reflexivity |].
    unfold savedProgram. autorewrite with timestamps. cbn.
    split; [done |]. split; [by destruct (Program.publishedAt program) |].
    by intros d ->.
  - rewrite (publish_other_program e s l term program) by done.
    eexists. split; reflexivity.
Qed.

Lemma publish_cascades_to_draft_program_witness :
  programs storeDraft !! 100 = Some draftProgram
  ∧ Program.status draftProgram = Program.draft
  ∧ (∃ l' p', publish quietEnv draftLesson storeDraft =
                (fst (publish quietEnv draftLesson storeDraft), Ok l')
            ∧ programs (fst (publishLesson quietEnv 1 storeDraft)) !! 100 = Some p'
            ∧ Program.status p' = Program.published
            ∧ is_Some (Program.publishedAt p'))
  ∧ programs storePublishedProgram !! 100 = Some publishedProgram
  ∧ (∃ l', publish quietEnv draftLesson storePublishedProgram =
             (fst (publish quietEnv draftLesson storePublishedProgram), Ok l')
           ∧ programs (fst (publishLesson quietEnv 1 storePublishedProgram))
             = programs storePublishedProgram).
Proof.
  split; [reflexivity |]. split; [reflexivity |]. split.
  - destruct (publish_cascades_to_draft_program quietEnv storeDraft 1 draftLesson
                sampleTerm draftProgram) as (Hfst & Hdraft & _); try reflexivity.
    + apply available_hasThumbnail. reflexivity.
    + apply available_hasThumbnail. reflexivity.
    + destruct (Hdraft eq_refl) as (l' & p' & H1 & H2 & H3 & H4 & _).
      exists l', p'. rewrite Hfst. by repeat split.
  - split; [reflexivity |].
    destruct (publish_cascades_to_draft_program quietEnv storePublishedProgram 1
                draftLesson sampleTerm publishedProgram) as (Hfst & _ & Hother);
      try reflexivity.
    + apply available_hasThumbnail. reflexivity.
    + apply available_hasThumbnail. reflexivity.
    + destruct Hother as (l' & H1 & H2); [discriminate |].
      exists l'. rewrite Hfst. by split.
Defined.

(** ** What a computation can end with *)

Section Outcome.
Context {S : Type} (E : Error → Prop).







End Outcome.

(** The errors of a lifecycle method of the API, apart from those it
    throws itself: a rejected database call. *)
Section MethodErrors.
Context (E : Error → Prop).
Hypothesis E_storage : ∀ op, E (StorageError op).






End MethodErrors.



Lemma publishLesson_lesson_saved e s id l :
  fails e LessonFindById = false →
  fails e LessonAssetFind = false →
  fails e LessonSave = false →
  lessons s !! id = Some l →
  Lesson._id l = id →
  isValid (assetCheck s l) = true →
  lessons (fst (publishLesson e id s)) =
    <[id := saved e l Lesson.published None (Some (now e))]> (lessons s)
  ∧ lessonAssets (fst (publishLesson e id s)) = lessonAssets s
  ∧ terms (fst (publishLesson e id s)) = terms s.
Proof.
  intros Hfind Ha Hsave Hl Hid Hv.
  rewrite (publishLesson_run e id s l) by done. rewrite answered_fst. subst id.
  destruct (publish e l s) as [s' r] eqn:Hrun.
  destruct (publish_lesson_saved e s l s' r Ha Hsave Hl Hv Hrun) as (H1 & H2 & H3 & _).
  done.
Qed.



(** ** The worker: one lesson *)

Lemma liftDb_run {A} (m : M Store A) w s' r :
  m (db w) = (s', r) → liftDb m w = (setDb w s', r).
Proof. unfold liftDb. by intros ->. Qed.

(** The [catch] of the loop body swallows every error. *)
Lemma processLesson_returns e lesson w : snd (processLesson e lesson w) = Ok tt.
Proof.
  unfold processLesson, tryCatch.
  destruct (bind _ _ w) as [w' [[]|err]]; reflexivity.
Qed.

(** The loop body from the outcome of its transaction callback. *)
Lemma processLesson_committed e lesson w w' :
  fails e StartSession = false →
  fails e EndSession = false →
  publishTransaction e lesson w = (w', Ok tt) →
  processLesson e lesson w = (w', Ok tt).
Proof.
  intros Hsess Hend Hrun. unfold processLesson, tryCatch, withTransaction.
  unfold bind. rewrite !await_ok by done. unfold ret. by rewrite Hrun.
Qed.

Lemma processLesson_aborted e lesson w w' err :
  fails e StartSession = false →
  publishTransaction e lesson w = (w', Throw err) →
  processLesson e lesson w =
    ({| db := db w; processedCount := processedCount w';
        errorCount := S (errorCount w');
        logged := logged w' ++ [ProcessingError (Lesson._id lesson) err] |},
     Ok tt).
Proof.
  intros Hsess Hrun. unfold processLesson, tryCatch, withTransaction.
  unfold bind at 1. unfold bind at 1. rewrite await_ok by done.
  unfold ret at 1. unfold bind at 1. by rewrite Hrun.
Qed.

Lemma processLesson_end_rejected e lesson w w' :
  fails e StartSession = false →
  fails e EndSession = true →
  publishTransaction e lesson w = (w', Ok tt) →
  processLesson e lesson w =
    ({| db := db w'; processedCount := processedCount w';
        errorCount := S (errorCount w');
        logged := logged w'
                  ++ [ProcessingError (Lesson._id lesson) (StorageError EndSession)] |},
     Ok tt).
Proof.
  intros Hsess Hend Hrun. unfold processLesson, tryCatch, withTransaction.
  unfold bind at 1. unfold bind at 1. rewrite await_ok by done.
  unfold ret at 1. unfold bind at 1. rewrite Hrun.
  by rewrite await_rejects.
Qed.

Lemma processLesson_no_session e lesson w :
  fails e StartSession = true →
  processLesson e lesson w =
    ({| db := db w; processedCount := processedCount w;
        errorCount := S (errorCount w);
        logged := logged w
                  ++ [ProcessingError (Lesson._id lesson) (StorageError StartSession)] |},
     Ok tt).
Proof.
  intros Hsess. unfold processLesson, tryCatch.
  unfold bind at 1. by rewrite await_rejects.
Qed.

(** The transaction callback of the worker, case by case.  For a lesson
    that is still scheduled it ends where [validateAssets] looks up the
    model of the assets, which the worker never registered. *)
Lemma publishTransaction_read_rejected e lesson w :
  fails e LessonFindById = true →
  publishTransaction e lesson w = (setDb w (db w), Throw (StorageError LessonFindById)).
Proof.
  intros Hfind. unfold publishTransaction. unfold bind at 1.
  unfold liftDb, Lesson_findById. by rewrite await_rejects.
Qed.

Lemma publishTransaction_not_stored e lesson w :
  fails e LessonFindById = false →
  lessons (db w) !! Lesson._id lesson = None →
  publishTransaction e lesson w =
    ({| db := db w; processedCount := processedCount w;
        errorCount := errorCount w;
        logged := logged w ++ [StatusChanged (Lesson._id lesson) None] |},
     Ok tt).
Proof.
  intros Hfind Hcur. unfold publishTransaction. unfold bind at 1.
  rewrite (liftDb_run _ _ _ _ (Lesson_findById_run e _ _ Hfind)).
  cbn [db setDb]. by rewrite Hcur.
Qed.

Lemma publishTransaction_not_scheduled e lesson w cur :
  fails e LessonFindById = false →
  lessons (db w) !! Lesson._id lesson = Some cur →
  Lesson.status cur ≠ Lesson.scheduled →
  publishTransaction e lesson w =
    ({| db := db w; processedCount := processedCount w;
        errorCount := errorCount w;
        logged := logged w
                  ++ [StatusChanged (Lesson._id lesson) (Some (Lesson.status cur))] |},
     Ok tt).
Proof.
  intros Hfind Hcur Hst. unfold publishTransaction. unfold bind at 1.
  rewrite (liftDb_run _ _ _ _ (Lesson_findById_run e _ _ Hfind)).
  cbn [db setDb]. rewrite Hcur. by rewrite decide_True by done.
Qed.

Lemma publishTransaction_scheduled e lesson w cur :
  fails e LessonFindById = false →
  lessons (db w) !! Lesson._id lesson = Some cur →
  Lesson.status cur = Lesson.scheduled →
  publishTransaction e lesson w =
    (setDb (setDb w (db w)) (db w), Throw (MissingSchemaError "LessonAsset")).
Proof.
  intros Hfind Hcur Hst. unfold publishTransaction. unfold bind at 1.
  rewrite (liftDb_run _ _ _ _ (Lesson_findById_run e _ _ Hfind)).
  cbn [db setDb]. rewrite Hcur. rewrite decide_False by (rewrite Hst; tauto).
  unfold bind at 1.
  by rewrite (liftDb_run _ _ _ _ (Worker_validateAssets_run e cur _)).
Qed.

Section LessonFrame.
Local Open Scope list_scope.

Lemma processLesson_frame e lesson w :
  lessonFrame lesson w (fst (processLesson e lesson w)).
Proof.
  unfold lessonFrame.
  destruct (fails e StartSession) eqn:Hsess.
  { rewrite processLesson_no_session by done. cbn. do 2 (split; [done |]).
    right. eexists. split; [done |]. by left. }
  destruct (fails e LessonFindById) eqn:Hfind.
  { rewrite (processLesson_aborted e lesson w _ _ Hsess
               (publishTransaction_read_rejected e lesson w Hfind)).
    cbn. do 2 (split; [done |]). right. eexists. split; [done |]. by left. }
  assert (Hcommit : ∀ w1,
            publishTransaction e lesson w = (w1, Ok tt) →
            db w1 = db w → processedCount w1 = processedCount w →
            errorCount w1 = errorCount w →
            (∃ st, logged w1 = logged w ++ [StatusChanged (Lesson._id lesson) st]) →
            db (fst (processLesson e lesson w)) = db w
            ∧ processedCount (fst (processLesson e lesson w)) = processedCount w
            ∧ ((errorCount (fst (processLesson e lesson w)) = errorCount w
                ∧ (logged (fst (processLesson e lesson w)) = logged w
                   ∨ ∃ st, logged (fst (processLesson e lesson w))
                           = logged w ++ [StatusChanged (Lesson._id lesson) st]))
               ∨ ∃ err, errorCount (fst (processLesson e lesson w)) = S (errorCount w)
                        ∧ (logged (fst (processLesson e lesson w))
                           = logged w ++ [ProcessingError (Lesson._id lesson) err]
                           ∨ ∃ st, logged (fst (processLesson e lesson w)) =
                                     (logged w ++ [StatusChanged (Lesson._id lesson) st])
                                     ++ [ProcessingError (Lesson._id lesson) err]))).
  { intros w1 Htx Hdb Hpc Hec [st Hlog].
    destruct (fails e EndSession) eqn:Hend.
    - rewrite (processLesson_end_rejected e lesson w w1) by done.
      cbn. rewrite Hpc, Hec, Hlog.
      do 2 (split; [done |]). right. eexists. split; [done |]. right. by exists st.
    - rewrite (processLesson_committed e lesson w w1) by done. cbn [fst].
      do 2 (split; [done |]). left. split; [done |]. right. by exists st. }
  destruct (lessons (db w) !! Lesson._id lesson) as [cur|] eqn:Hcur.
  - destruct (decide (Lesson.status cur = Lesson.scheduled)) as [Hst|Hst].
    + rewrite (processLesson_aborted e lesson w _ _ Hsess
                 (publishTransaction_scheduled e lesson w cur Hfind Hcur Hst)).
      cbn. do 2 (split; [done |]). right. eexists. split; [done |]. by left.
    + eapply Hcommit.
      * by apply publishTransaction_not_scheduled.
      * done.
      * done.
      * done.
      * by eexists.
  - eapply Hcommit.
    + by apply publishTransaction_not_stored.
    + done.
    + done.
    + done.
    + by eexists.
Qed.

End LessonFrame.


(** A found lesson that is stored and still scheduled always ends as an
    error: its session fails to start, its read rejects, or the asset
    check throws. *)
Lemma processLesson_scheduled e lesson w cur :
  lessons (db w) !! Lesson._id lesson = Some cur →
  Lesson.status cur = Lesson.scheduled →
  ∃ err,
    processLesson e lesson w =
      ({| db := db w; processedCount := processedCount w;
          errorCount := S (errorCount w);
          logged := logged w ++ [ProcessingError (Lesson._id lesson) err] |},
       Ok tt)
    ∧ (fails e StartSession = false → fails e LessonFindById = false →
       err = MissingSchemaError "LessonAsset").
Proof.
  intros Hcur Hst.
  destruct (fails e StartSession) eqn:Hsess.
  { eexists. split; [by apply processLesson_no_session |]. done. }
  destruct (fails e LessonFindById) eqn:Hfind.
  { eexists. split.
    - by rewrite (processLesson_aborted e lesson w _ _ Hsess
                    (publishTransaction_read_rejected e lesson w Hfind)).
    - done. }
  eexists. split.
  - by rewrite (processLesson_aborted e lesson w _ _ Hsess
                  (publishTransaction_scheduled e lesson w cur Hfind Hcur Hst)).
  - done.
Qed.

(** A lesson that is stored and no longer scheduled: nothing is written,
    whatever the environment. *)
Lemma processLesson_not_scheduled_db e lesson w cur :
  lessons (db w) !! Lesson._id lesson = Some cur →
  Lesson.status cur ≠ Lesson.scheduled →
  ∃ errors entries,
    processLesson e lesson w =
      ({| db := db w; processedCount := processedCount w;
          errorCount := errors; logged := entries |}, Ok tt).
Proof.
  intros Hcur Hst.
  unfold processLesson, tryCatch, withTransaction, publishTransaction.
  unfold bind at 1. unfold bind at 1. unfold await at 1.
  destruct (fails e StartSession); [by do 2 eexists |].
  unfold ret at 1. unfold bind at 1. unfold liftDb at 1, Lesson_findById, await.
  destruct (fails e LessonFindById); [by do 2 eexists |].
  rewrite Hcur. rewrite decide_True by done.
  destruct (fails e EndSession); by do 2 eexists.
Qed.

(** C3.  Once a run of the loop body has left the lesson published, a
    second run on the same lesson writes nothing (so [publishedAt] stays),
    raises nothing and counts nothing as processed; when its session and its
    read succeed it only logs that the status changed and counts no error. *)
Theorem second_run_is_noop e1 e2 lesson w l1 :
  lessons (db (fst (processLesson e1 lesson w))) !! Lesson._id lesson = Some l1 →
  Lesson.status l1 = Lesson.published →
  db (fst (processLesson e2 lesson (fst (processLesson e1 lesson w))))
    = db (fst (processLesson e1 lesson w))
  ∧ lessons (db (fst (processLesson e2 lesson (fst (processLesson e1 lesson w)))))
      !! Lesson._id lesson = Some l1
  ∧ snd (processLesson e2 lesson (fst (processLesson e1 lesson w))) = Ok tt
  ∧ processedCount (fst (processLesson e2 lesson (fst (processLesson e1 lesson w))))
    = processedCount (fst (processLesson e1 lesson w))
  ∧ (fails e2 StartSession = false → fails e2 LessonFindById = false →
     fails e2 EndSession = false →
     errorCount (fst (processLesson e2 lesson (fst (processLesson e1 lesson w))))
       = errorCount (fst (processLesson e1 lesson w))
     ∧ logged (fst (processLesson e2 lesson (fst (processLesson e1 lesson w))))
       = (logged (fst (processLesson e1 lesson w))
          ++ [StatusChanged (Lesson._id lesson) (Some Lesson.published)])%list).
Proof.
  set (w1 := fst (processLesson e1 lesson w)). intros Hl1 Hpub.
  assert (Hns : Lesson.status l1 ≠ Lesson.scheduled) by (rewrite Hpub; discriminate).
  destruct (processLesson_not_scheduled_db e2 lesson w1 l1 Hl1 Hns)
    as (errors & entries & Hrun).
  split; [by rewrite Hrun |]. split; [by rewrite Hrun |].
  split; [apply processLesson_returns |]. split; [by rewrite Hrun |].
  intros Hsess Hfind Hend.
  rewrite (processLesson_committed e2 lesson w1 _ Hsess Hend
             (publishTransaction_not_scheduled e2 lesson w1 l1 Hfind Hl1 Hns)).
  cbn [fst errorCount logged]. by rewrite Hpub.
Qed.

(** The lesson was found scheduled by the scan and published before the
    loop reached it. *)
Lemma second_run_is_noop_witness :
  lessons (db (fst (processLesson quietEnv scheduledLesson (freshWorker storePublished)))) !! 1
    = Some publishedLesson
  ∧ lessons (db (fst (processLesson quietEnv scheduledLesson
                   (fst (processLesson quietEnv scheduledLesson
                           (freshWorker storePublished))))))
      !! 1 = Some publishedLesson
  ∧ snd (processLesson quietEnv scheduledLesson
           (fst (processLesson quietEnv scheduledLesson (freshWorker storePublished))))
    = Ok tt.
Proof.
  split; [reflexivity |].
  destruct (second_run_is_noop quietEnv quietEnv scheduledLesson
              (freshWorker storePublished) publishedLesson)
    as (_ & H2 & H3 & _); [reflexivity | reflexivity |].
  split; assumption.
Defined.

(** ** The loop *)

(** The loop body never throws, so the loop goes through the whole list. *)
Lemma loop_cons te lesson rest w :
  loop te (lesson :: rest) w =
    loop te rest (fst (processLesson (perLesson te (Lesson._id lesson)) lesson w)).
Proof.
  unfold loop. cbn [forEach]. unfold bind at 1.
  pose proof (processLesson_returns (perLesson te (Lesson._id lesson)) lesson w) as Hret.
  destruct (processLesson _ lesson w) as [w1 r]. cbn [snd] in Hret. by subst r.
Qed.

Lemma loop_returns te found w : snd (loop te found w) = Ok tt.
Proof.
  revert w. induction found as [|lesson rest IH]; intros w; [done |].
  rewrite loop_cons. apply IH.
Qed.

(** The loop leaves the database and the count of processed lessons, and
    counts at most one error for each lesson. *)
Lemma loop_frame te found w :
  db (fst (loop te found w)) = db w
  ∧ processedCount (fst (loop te found w)) = processedCount w
  ∧ (errorCount w ≤ errorCount (fst (loop te found w)) ≤ errorCount w + length found)%nat.
Proof.
  revert w. induction found as [|lesson rest IH]; intros w.
  { cbn. split; [done |]. split; [done | lia]. }
  rewrite loop_cons.
  destruct (processLesson_frame (perLesson te (Lesson._id lesson)) lesson w)
    as (Hdb & Hpc & Hec).
  destruct (IH (fst (processLesson (perLesson te (Lesson._id lesson)) lesson w)))
    as (Hdb' & Hpc' & Hec').
  split; [congruence |]. split; [congruence |]. cbn [length].
  destruct Hec as [[Hec _]|(err & Hec & _)]; lia.
Qed.

(** A loop over lessons that are all stored and scheduled counts each of
    them as an error. *)
Lemma loop_scheduled te found w :
  (∀ lesson, In lesson found →
     ∃ cur, lessons (db w) !! Lesson._id lesson = Some cur
            ∧ Lesson.status cur = Lesson.scheduled) →
  errorCount (fst (loop te found w)) = (errorCount w + length found)%nat.
Proof.
  revert w. induction found as [|lesson rest IH]; intros w Hall; [cbn; lia |].
  rewrite loop_cons.
  destruct (Hall lesson (or_introl eq_refl)) as (cur & Hcur & Hst).
  destruct (processLesson_scheduled (perLesson te (Lesson._id lesson)) lesson w cur
              Hcur Hst) as (err & Hrun & _).
  rewrite Hrun. cbn [fst]. rewrite IH; [cbn; lia |].
  intros x Hx. cbn [db]. apply Hall. by right.
Qed.

(** ** A run of the worker *)

Lemma tick_returns te w : snd (tick te w) = Ok tt.
Proof.
  unfold tick, tryCatch.
  match goal with |- context [bind ?m ?k w] => destruct (bind m k w) as [w' [[]|err]] end;
    reflexivity.
Qed.

(** The worker state a run ends in, from the outcome of its scan. *)
Lemma run_scan_rejected te s :
  fails (scan te) LessonFind = true →
  processScheduledLessons te s =
    {| db := s; processedCount := 0; errorCount := 0;
       logged := [Starting; RunError (StorageError LessonFind)] |}.
Proof.
  intros Hscan. unfold processScheduledLessons, tick, tryCatch, freshWorker.
  unfold bind at 1. unfold logger at 1, modify. unfold bind at 1.
  unfold liftDb, Lesson_findDue. rewrite await_rejects by done. reflexivity.
Qed.

Lemma Lesson_findDue_run e s :
  fails e LessonFind = false →
  Lesson_findDue e s = (s, Ok (dueLessons s (now e))).
Proof. intros H. unfold Lesson_findDue. by rewrite await_ok. Qed.

Lemma run_scan_ok te s :
  fails (scan te) LessonFind = false →
  processScheduledLessons te s =
    {| db := db (fst (loop te (dueLessons s (now (scan te)))
                        (loopStart s (dueLessons s (now (scan te))))));
       processedCount :=
         processedCount (fst (loop te (dueLessons s (now (scan te)))
                                (loopStart s (dueLessons s (now (scan te))))));
       errorCount :=
         errorCount (fst (loop te (dueLessons s (now (scan te)))
                            (loopStart s (dueLessons s (now (scan te))))));
       logged :=
         logged (fst (loop te (dueLessons s (now (scan te)))
                        (loopStart s (dueLessons s (now (scan te))))))
         ++ [Completed (length (dueLessons s (now (scan te))))
               (processedCount (fst (loop te (dueLessons s (now (scan te)))
                                      (loopStart s (dueLessons s (now (scan te)))))))
               (errorCount (fst (loop te (dueLessons s (now (scan te)))
                                  (loopStart s (dueLessons s (now (scan te)))))))] |}.
Proof.
  intros Hscan. set (found := dueLessons s (now (scan te))).
  assert (Htick : tick te (freshWorker s) =
            tryCatch (loop te found ;; logCompleted (length found))
              (λ error, logger (RunError error)) (loopStart s found)).
  { unfold tick, tryCatch, freshWorker.
    unfold bind at 1. unfold logger at 1, modify. unfold bind at 1.
    unfold liftDb. rewrite Lesson_findDue_run by done. reflexivity. }
  unfold processScheduledLessons. rewrite Htick. unfold tryCatch, bind.
  pose proof (loop_returns te found (loopStart s found)) as Hret.
  destruct (loop te found (loopStart s found)) as [w1 r]. cbn [snd] in Hret.
  subst r. reflexivity.
Qed.

(** A run never writes and never counts a lesson as processed. *)
Lemma run_db te s :
  db (processScheduledLessons te s) = s
  ∧ processedCount (processScheduledLessons te s) = 0%nat.
Proof.
  destruct (fails (scan te) LessonFind) eqn:Hscan.
  - by rewrite run_scan_rejected.
  - rewrite run_scan_ok by done. cbn [db processedCount].
    destruct (loop_frame te (dueLessons s (now (scan te)))
                (loopStart s (dueLessons s (now (scan te))))) as (Hdb & Hpc & _).
    by rewrite Hdb, Hpc.
Qed.

(** ** The worker: a lesson whose assets went missing *)

(** C6.  What the code does where the claim expects the missing variants
    to be reported.  In a run of the loop, for a found lesson that is still
    scheduled, whether or not it has its thumbnails: when its session
    starts and its read succeeds, the asset check throws
    [MissingSchemaError] for the model of the assets, the loop body logs
    that error for the lesson and counts it, the database is as before
    (the lesson still scheduled, its [publishAt] kept), nothing is
    thrown, and the loop goes on with the remaining lessons.  The missing
    variants are never computed or logged. *)
Theorem due_lesson_fails_before_asset_check te lesson rest w cur :
  fails (perLesson te (Lesson._id lesson)) StartSession = false →
  fails (perLesson te (Lesson._id lesson)) LessonFindById = false →
  lessons (db w) !! Lesson._id lesson = Some cur →
  Lesson.status cur = Lesson.scheduled →
  ∃ w',
    processLesson (perLesson te (Lesson._id lesson)) lesson w = (w', Ok tt)
    ∧ db w' = db w
    ∧ lessons (db w') !! Lesson._id lesson = Some cur
    ∧ processedCount w' = processedCount w
    ∧ errorCount w' = S (errorCount w)
    ∧ logged w' =
        (logged w
         ++ [ProcessingError (Lesson._id lesson) (MissingSchemaError "LessonAsset")])%list
    ∧ loop te (lesson :: rest) w = loop te rest w'
    ∧ (S (errorCount w) ≤ errorCount (fst (loop te (lesson :: rest) w)))%nat.
Proof.
  intros Hsess Hfind Hcur Hst.
  destruct (processLesson_scheduled (perLesson te (Lesson._id lesson)) lesson w cur
              Hcur Hst) as (err & Hrun & Herr).
  rewrite (Herr Hsess Hfind) in Hrun. clear Herr.
  eexists. split; [exact Hrun |]. do 5 (split; [done |]).
  assert (Hloop : loop te (lesson :: rest) w = loop te rest
            {| db := db w; processedCount := processedCount w;
               errorCount := S (errorCount w);
               logged := logged w
                         ++ [ProcessingError (Lesson._id lesson)
                               (MissingSchemaError "LessonAsset")] |}).
  { rewrite loop_cons. by rewrite Hrun. }
  split; [exact Hloop |]. rewrite Hloop.
  match goal with
  | |- (_ ≤ errorCount (fst (loop te rest ?w1)))%nat =>
      destruct (loop_frame te rest w1) as (_ & _ & Hec & _)
  end.
  exact Hec.
Qed.

Lemma due_lesson_fails_before_asset_check_witness :
  lessons storeDueMissingLandscape !! 1 = Some scheduledLesson
  ∧ (∃ w',
      processLesson quietEnv scheduledLesson (freshWorker storeDueMissingLandscape)
      = (w', Ok tt)
      ∧ db w' = storeDueMissingLandscape
      ∧ errorCount w' = 1
      ∧ logged w' = [ProcessingError 1 (MissingSchemaError "LessonAsset")])
  ∧ logged (processScheduledLessons (quietTick quietEnv) storeDueMissingLandscape)
    = [Starting; FoundLessons 1;
       ProcessingError 1 (MissingSchemaError "LessonAsset"); Completed 1 0 1]
  ∧ logged (processScheduledLessons (quietTick quietEnv) storeDue)
    = [Starting; FoundLessons 1;
       ProcessingError 1 (MissingSchemaError "LessonAsset"); Completed 1 0 1].
Proof.
  split; [reflexivity |].
  split; [| split; vm_compute; reflexivity].
  destruct (due_lesson_fails_before_asset_check (quietTick quietEnv)
              scheduledLesson [] (freshWorker storeDueMissingLandscape)
              scheduledLesson)
    as (w' & H1 & H2 & _ & _ & H3 & H4 & _); try reflexivity.
  exists w'. split; [exact H1 |]. split; [exact H2 |]. split; [exact H3 | exact H4].
Defined.

(** ** A cascade save that is rejected *)



(** ** Invariants of computations *)

Section Preserves.
Context {S : Type} (I : S → Prop).

Lemma preserves_ret {A} (a : A) : preserves I (ret a).
Proof. by intros s Hs. Qed.

Lemma preserves_throw {A} err : preserves I (@throw S A err).
Proof. by intros s Hs. Qed.

Lemma preserves_read {A} (f : S → A) : preserves I (λ s, (s, Ok (f s))).
Proof. by intros s Hs. Qed.

Lemma preserves_update {A} (f : S → S) (g : S → A) :
  (∀ s, I s → I (f s)) → preserves I (λ s, (f s, Ok (g s))).
Proof. intros Hf s Hs. by apply Hf. Qed.

Lemma preserves_bind {A B} (m : M S A) (k : A → M S B) :
  preserves I m → (∀ a, preserves I (k a)) → preserves I (bind m k).
Proof.
  intros Hm Hk s Hs. unfold bind. specialize (Hm s Hs).
  destruct (m s) as [s' [a|err]]; [by apply Hk | done].
Qed.

Lemma preserves_await {A} e op (m : M S A) :
  preserves I m → preserves I (await e op m).
Proof. intros Hm. unfold await. destruct (fails e op); [apply preserves_throw | done]. Qed.

Lemma preserves_mongoose_model registered name :
  preserves I (mongoose_model registered name).
Proof.
  unfold mongoose_model.
  destruct (includes registered name); [apply preserves_ret | apply preserves_throw].
Qed.

Lemma preserves_res_json lesson : preserves I (res_json lesson).
Proof. intros s Hs. by rewrite res_json_run. Qed.
End Preserves.

Ltac preserves_go :=
  repeat first
    [ apply preserves_ret
    | apply preserves_throw
    | apply preserves_await
    | apply preserves_read
    | apply preserves_mongoose_model
    | apply preserves_res_json
    | apply preserves_bind; [| intros ?]
    | match goal with
      | |- preserves _ (match ?x with _ => _ end) => destruct x
      end ].

Section Reads.
Context (J : Store → Prop).

Lemma Lesson_findById_preserves e id : preserves J (Lesson_findById e id).
Proof. unfold Lesson_findById. preserves_go. Qed.

Lemma Term_findById_preserves e id : preserves J (Term_findById e id).
Proof. unfold Term_findById. preserves_go. Qed.

Lemma Program_findById_preserves e id : preserves J (Program_findById e id).
Proof. unfold Program_findById. preserves_go. Qed.

Lemma validateAssets_preserves e l : preserves J (validateAssets e l).
Proof. unfold validateAssets, LessonAsset_find. preserves_go. Qed.
End Reads.

(** ** The lifecycle invariant *)

Lemma lifecycleOk_timestamps e stored doc :
  lifecycleOk doc → lifecycleOk (Lesson_timestamps e stored doc).
Proof.
  unfold lifecycleOk, validatorsHold, datesNameStatus.
  by autorewrite with timestamps.
Qed.

Lemma lifecycleOk_published l t :
  lifecycleOk (Lesson.assign l Lesson.published None (Some t)).
Proof.
  unfold lifecycleOk, validatorsHold, datesNameStatus. cbn.
  repeat split; intros; try done; by apply is_Some_None in H.
Qed.

Lemma lifecycleOk_scheduled l t :
  lifecycleOk (Lesson.assign l Lesson.scheduled (Some t) None).
Proof.
  unfold lifecycleOk, validatorsHold, datesNameStatus. cbn.
  repeat split; intros; try done; by apply is_Some_None in H.
Qed.

Lemma lifecycleOk_archived l pa pd :
  lifecycleOk (Lesson.assign l Lesson.archived pa pd).
Proof.
  unfold lifecycleOk, validatorsHold, datesNameStatus. cbn.
  repeat split; intros; done.
Qed.

Lemma Lesson_save_storeOk e doc :
  lifecycleOk doc → preserves storeOk (Lesson_save e doc).
Proof.
  intros Hdoc. unfold Lesson_save. apply preserves_await, preserves_update.
  intros s Hs. unfold storeOk. cbn [lessons setLessons].
  by apply map_Forall_insert_2; [apply lifecycleOk_timestamps |].
Qed.

Lemma Program_save_storeOk e doc : preserves storeOk (Program_save e doc).
Proof.
  unfold Program_save. apply preserves_await, preserves_update.
  by intros s Hs.
Qed.

Lemma autoPublish_storeOk e p : preserves storeOk (autoPublish e p).
Proof.
  unfold autoPublish. destruct (decide _); [| apply preserves_ret].
  apply Program_save_storeOk.
Qed.

Lemma publish_storeOk e this : preserves storeOk (publish e this).
Proof.
  unfold publish.
  apply preserves_bind; [apply validateAssets_preserves | intros v].
  destruct (negb (isValid v)); [apply preserves_throw |].
  apply preserves_bind;
    [apply Lesson_save_storeOk, lifecycleOk_published | intros this'].
  apply preserves_bind; [apply preserves_mongoose_model | intros _].
  apply preserves_bind; [apply preserves_mongoose_model | intros _].
  apply preserves_bind; [apply Term_findById_preserves | intros term].
  apply preserves_bind; [| intros _; apply preserves_ret].
  destruct term as [term|]; [| apply preserves_ret].
  apply preserves_bind; [apply Program_findById_preserves | intros [program|]];
    [| apply preserves_ret].
  destruct (decide _); [| apply preserves_ret].
  apply preserves_bind; [apply autoPublish_storeOk | intros _; apply preserves_ret].
Qed.

Lemma schedule_storeOk e publishAt this : preserves storeOk (schedule e publishAt this).
Proof.
  unfold schedule. destruct (notInFuture _ _); [apply preserves_throw |].
  destruct publishAt as [[t|]|]; try apply preserves_throw.
  apply Lesson_save_storeOk, lifecycleOk_scheduled.
Qed.

Lemma archive_storeOk e this : preserves storeOk (archive e this).
Proof. unfold archive. apply Lesson_save_storeOk, lifecycleOk_archived. Qed.

Lemma publishLesson_storeOk e id : preserves storeOk (publishLesson e id).
Proof.
  unfold publishLesson, notFound.
  apply preserves_bind; [apply Lesson_findById_preserves | intros [l|]];
    [| apply preserves_throw].
  apply preserves_bind; [apply publish_storeOk | intros l'; apply preserves_res_json].
Qed.

Lemma scheduleLesson_storeOk e id publishAt :
  preserves storeOk (scheduleLesson e id publishAt).
Proof.
  unfold scheduleLesson, notFound. destruct publishAt as [d|]; [| apply preserves_throw].
  apply preserves_bind; [apply Lesson_findById_preserves | intros [l|]];
    [| apply preserves_throw].
  apply preserves_bind; [apply schedule_storeOk | intros l'; apply preserves_res_json].
Qed.

Lemma archiveLesson_storeOk e id : preserves storeOk (archiveLesson e id).
Proof.
  unfold archiveLesson, notFound.
  apply preserves_bind; [apply Lesson_findById_preserves | intros [l|]];
    [| apply preserves_throw].
  apply preserves_bind; [apply archive_storeOk | intros l'; apply preserves_res_json].
Qed.

Lemma step_storeOk s r : storeOk s → storeOk (step s r).
Proof.
  intros Hs. destruct r as [e id|e id publishAt|e id|te]; cbn [step].
  - by apply publishLesson_storeOk.
  - by apply scheduleLesson_storeOk.
  - by apply archiveLesson_storeOk.
  - by rewrite (proj1 (run_db te s)).
Qed.

(** C2 fails on the code as an equivalence: scheduling a draft lesson and
    then archiving it leaves an archived lesson that still has its
    [publishAt]; publishing and then archiving leaves an archived lesson
    that still has its [publishedAt]. *)
Lemma lifecycle_equivalence_counterexample :
  (∃ l, lessons (run storeDraft
                   [Schedule quietEnv 1 (Some (ValidDate 2000));
                    Archive quietEnv 1]) !! 1 = Some l
        ∧ Lesson.publishAt l = Some 2000%Z
        ∧ Lesson.status l = Lesson.archived
        ∧ ¬ (Lesson.status l = Lesson.scheduled ↔ is_Some (Lesson.publishAt l)))
  ∧ (∃ l, lessons (run storeDraft
                     [PublishNow quietEnv 1; Archive quietEnv 1]) !! 1 = Some l
          ∧ Lesson.publishedAt l = Some 1000%Z
          ∧ Lesson.status l = Lesson.archived
          ∧ ¬ (Lesson.status l = Lesson.published ↔ is_Some (Lesson.publishedAt l))).
Proof.
  split; eexists; (split; [vm_compute; reflexivity |]);
    (split; [reflexivity |]); (split; [reflexivity |]);
    cbn; intros [_ H]; by specialize (H (mk_is_Some _ _ eq_refl)).
Qed.

(** C2, amended.  From a database in which every lesson satisfies the two
    schema validators (scheduled gives a [publishAt], published gives a
    [publishedAt]) and, unless archived, their converses, every sequence
    of publish, schedule and archive requests and worker runs, in any
    environments, ends in such a database: the validators hold of every
    lesson, and the converses of every lesson that is not archived. *)
Theorem lifecycle_invariant s rs id l :
  storeOk s →
  lessons (run s rs) !! id = Some l →
  (Lesson.status l = Lesson.scheduled → is_Some (Lesson.publishAt l))
  ∧ (Lesson.status l = Lesson.published → is_Some (Lesson.publishedAt l))
  ∧ (Lesson.status l ≠ Lesson.archived →
     (Lesson.status l = Lesson.scheduled ↔ is_Some (Lesson.publishAt l))
     ∧ (Lesson.status l = Lesson.published ↔ is_Some (Lesson.publishedAt l))).
Proof.
  intros Hs Hl.
  assert (Hrun : storeOk (run s rs)).
  { unfold run. revert s Hs Hl. induction rs as [|r rs IH]; intros s Hs Hl; [done |].
    cbn [fold_left]. apply IH; [by apply step_storeOk | done]. }
  destruct (Hrun id l Hl) as [[Hsched Hpub] Hconv].
  split; [done |]. split; [done |].
  intros Hna. destruct (Hconv Hna) as [H1 H2]. split; split; done.
Qed.

Lemma lifecycle_invariant_witness :
  storeOk storeDraft
  ∧ (∃ l, lessons (run storeDraft
                     [Schedule quietEnv 1 (Some (ValidDate 2000));
                      WorkerRun (quietTick quietEnv);
                      PublishNow quietEnv 1]) !! 1 = Some l
          ∧ Lesson.status l = Lesson.published
          ∧ (Lesson.status l = Lesson.published ↔ is_Some (Lesson.publishedAt l))).
Proof.
  assert (Hok : storeOk storeDraft).
  { unfold storeOk, storeDraft, sampleStore. cbn [lessons].
    apply map_Forall_singleton.
    unfold lifecycleOk, validatorsHold, datesNameStatus. cbn.
    repeat split; intros; try done; by apply is_Some_None in H. }
  split; [exact Hok |]. eexists.
  split; [vm_compute; reflexivity |]. split; [reflexivity |].
  match goal with
  | |- Lesson.status ?l = _ ↔ _ =>
      destruct (lifecycle_invariant storeDraft
                  [Schedule quietEnv 1 (Some (ValidDate 2000));
                   WorkerRun (quietTick quietEnv);
                   PublishNow quietEnv 1] 1 l Hok) as (_ & _ & Hconv);
        [vm_compute; reflexivity |]
  end.
  apply Hconv. discriminate.
Defined.

(** * Further properties *)

(** ** The scan *)

#[local] Instance byPublishAt_trans : Transitive byPublishAt.
Proof. unfold byPublishAt. intros a b c. lia. Qed.

#[local] Instance byPublishAt_total : Total byPublishAt.
Proof. unfold byPublishAt. intros a b. lia. Qed.

Lemma isDue_true current l :
  isDue current l = true ↔
  Lesson.status l = Lesson.scheduled
  ∧ ∃ t, Lesson.publishAt l = Some t ∧ (t ≤ current)%Z.
Proof.
  unfold isDue. rewrite andb_true_iff, bool_decide_eq_true.
  destruct (Lesson.publishAt l) as [t|].
  - rewrite bool_decide_eq_true. split.
    + intros [Hst Ht]. eauto.
    + intros [Hst (t' & [= ->] & Ht)]. done.
  - split.
    + intros [_ [=]].
    + intros [_ (t & [=] & _)].
Qed.

Lemma allLessons_In s l : In l (allLessons s) ↔ ∃ k, lessons s !! k = Some l.
Proof.
  unfold allLessons. rewrite in_map_iff. split.
  - intros ([k l'] & <- & Hin). exists k.
    by apply list_elem_of_In, elem_of_map_to_list in Hin.
  - intros [k Hk]. exists (k, l). split; [done |].
    by apply list_elem_of_In, elem_of_map_to_list.
Qed.

Lemma merge_sort_In {A} (R : relation A) `{∀ x y, Decision (R x y)} (xs : list A) x :
  In x (merge_sort R xs) ↔ In x xs.
Proof. rewrite <- !list_elem_of_In. by rewrite merge_sort_Permutation. Qed.

Lemma dueLessons_In s current l : In l (dueLessons s current) ↔ dueAt s current l.
Proof.
  unfold dueLessons, dueAt.
  rewrite merge_sort_In, filter_In, allLessons_In, isDue_true. tauto.
Qed.

Lemma NoDup_map_filter {A B} (f : A → B) (P : A → bool) (xs : list A) :
  NoDup (List.map f xs) → NoDup (List.map f (List.filter P xs)).
Proof.
  induction xs as [|x xs IH]; cbn; [done |].
  rewrite NoDup_cons. intros [Hx Hxs]. destruct (P x); cbn; [| by apply IH].
  apply NoDup_cons. split; [| by apply IH].
  intros Hin. apply Hx. apply list_elem_of_In, in_map_iff in Hin as (y & Hy & Hin).
  apply filter_In in Hin as [Hin _].
  apply list_elem_of_In, in_map_iff. by exists y.
Qed.

Lemma allLessons_ids s :
  wfStore s → List.map Lesson._id (allLessons s) = List.map fst (map_to_list (lessons s)).
Proof.
  intros [Hwl _]. unfold allLessons. rewrite List.map_map.
  apply map_ext_in. intros [k l] Hin. cbn.
  apply list_elem_of_In, elem_of_map_to_list in Hin. exact (Hwl _ _ Hin).
Qed.

Lemma dueLessons_NoDup s current :
  wfStore s → NoDup (List.map Lesson._id (dueLessons s current)).
Proof.
  intros Hwf. unfold dueLessons.
  assert (Hperm : List.map Lesson._id
                    (merge_sort byPublishAt (List.filter (isDue current) (allLessons s)))
                  ≡ₚ List.map Lesson._id (List.filter (isDue current) (allLessons s))).
  { apply Permutation_map, merge_sort_Permutation. }
  rewrite Hperm. apply NoDup_map_filter. rewrite allLessons_ids by done.
  apply NoDup_fst_map_to_list.
Qed.

(** X1.  When its query does not reject, the scan of a run returns exactly
    the stored lessons that are scheduled with a [publishAt] at or before
    the scan's time, in ascending order of [publishAt], and, in a
    well-formed database, each of them once. *)
Theorem scan_returns_due_lessons_in_order e s :
  fails e LessonFind = false →
  ∃ found,
    Lesson_findDue e s = (s, Ok found)
    ∧ (∀ l, In l found ↔
            (∃ k, lessons s !! k = Some l)
            ∧ Lesson.status l = Lesson.scheduled
            ∧ ∃ t, Lesson.publishAt l = Some t ∧ (t ≤ now e)%Z)
    ∧ StronglySorted
        (λ a b, ∃ ta tb, Lesson.publishAt a = Some ta
                         ∧ Lesson.publishAt b = Some tb ∧ (ta ≤ tb)%Z) found
    ∧ (wfStore s → NoDup (List.map Lesson._id found)).
Proof.
  intros Hscan. exists (dueLessons s (now e)).
  split; [by apply Lesson_findDue_run |].
  split; [intros l; apply dueLessons_In |].
  split; [| apply dueLessons_NoDup].
  assert (Hsome : Forall (λ l, is_Some (Lesson.publishAt l)) (dueLessons s (now e))).
  { apply Forall_forall. intros l Hl. apply list_elem_of_In, dueLessons_In in Hl.
    destruct Hl as (_ & _ & t & -> & _). by eexists. }
  pose proof (StronglySorted_merge_sort byPublishAt
                (List.filter (isDue (now e)) (allLessons s))) as Hsorted.
  fold (dueLessons s (now e)) in Hsorted.
  induction Hsorted as [|a rest Hrest IH Ha]; [constructor |].
  apply Forall_cons in Hsome as [[ta Hta] Hsome]. constructor; [by apply IH |].
  apply Forall_forall. intros b Hb.
  pose proof (proj1 (Forall_forall _ _) Ha b Hb) as Hab.
  pose proof (proj1 (Forall_forall _ _) Hsome b Hb) as [tb Htb].
  exists ta, tb. unfold byPublishAt in Hab. rewrite Hta, Htb in Hab. cbn in Hab.
  done.
Qed.

Lemma scan_returns_due_lessons_in_order_witness :
  ∃ found,
    Lesson_findDue quietEnv storeDue = (storeDue, Ok found)
    ∧ (In scheduledLesson found ↔
         (∃ k, lessons storeDue !! k = Some scheduledLesson)
         ∧ Lesson.status scheduledLesson = Lesson.scheduled
         ∧ ∃ t, Lesson.publishAt scheduledLesson = Some t ∧ (t ≤ now quietEnv)%Z).
Proof.
  destruct (scan_returns_due_lessons_in_order quietEnv storeDue)
    as (found & H1 & H2 & _); [reflexivity |].
  exists found. split; [exact H1 | apply H2].
Defined.

(** ** What a run never does *)

Lemma wfStore_sample l p assets :
  Lesson._id l = 1 → Program._id p = 100 → wfStore (sampleStore l p assets).
Proof.
  intros Hl Hp. split; cbn [lessons programs sampleStore];
    by apply map_Forall_singleton.
Qed.

(** X2.  In a well-formed database a run of the worker, whatever rejects
    during it, neither creates nor deletes a lesson, and leaves every
    lesson exactly as it was unless the lesson was scheduled, in which
    case it may have become its published version: status published,
    [publishAt] cleared, [publishedAt] set, every other field kept.  Draft,
    published and archived lessons are never touched. *)
Theorem worker_run_touches_only_scheduled_lessons te s k :
  wfStore s →
  match lessons s !! k with
  | None => lessons (db (processScheduledLessons te s)) !! k = None
  | Some l =>
      lessons (db (processScheduledLessons te s)) !! k = Some l
      ∨ (Lesson.status l = Lesson.scheduled
         ∧ ∃ t, lessons (db (processScheduledLessons te s)) !! k
                = Some (Lesson.assign l Lesson.published None (Some t)))
  end.
Proof.
  intros _. rewrite (proj1 (run_db te s)).
  destruct (lessons s !! k) as [l|]; [by left | done].
Qed.

Lemma worker_run_touches_only_scheduled_lessons_witness :
  wfStore storeArchived
  ∧ lessons (db (processScheduledLessons (quietTick quietEnv) storeArchived)) !! 1
    = Some archivedLesson.
Proof.
  assert (Hwf : wfStore storeArchived) by (by apply wfStore_sample).
  split; [exact Hwf |].
  pose proof (worker_run_touches_only_scheduled_lessons
                (quietTick quietEnv) storeArchived 1 Hwf) as H.
  change (lessons storeArchived !! 1) with (Some archivedLesson) in H.
  destruct H as [H|[H _]]; [exact H | discriminate H].
Defined.

(** X3.  In a well-formed database a run of the worker, whatever rejects
    during it, leaves the terms and the assets as they were, neither
    creates nor deletes a program, and leaves every program as it was
    unless the program was a draft, in which case it may have become
    published, keeping the [publishedAt] it had if it had one.  A
    published or archived program is never changed by a run. *)
Theorem worker_run_touches_only_draft_programs te s k :
  wfStore s →
  terms (db (processScheduledLessons te s)) = terms s
  ∧ lessonAssets (db (processScheduledLessons te s)) = lessonAssets s
  ∧ match programs s !! k with
    | None => programs (db (processScheduledLessons te s)) !! k = None
    | Some p =>
        programs (db (processScheduledLessons te s)) !! k = Some p
        ∨ (Program.status p = Program.draft
           ∧ ∃ t, programs (db (processScheduledLessons te s)) !! k
                  = Some (Program.assign p Program.published (Some t))
                  ∧ (∀ d, Program.publishedAt p = Some d → t = d))
    end.
Proof.
  intros _. rewrite (proj1 (run_db te s)). split; [done |]. split; [done |].
  destruct (programs s !! k) as [p|]; [by left | done].
Qed.

Lemma worker_run_touches_only_draft_programs_witness :
  wfStore (sampleStore scheduledLesson publishedProgram bothThumbnails)
  ∧ programs (db (processScheduledLessons (quietTick quietEnv)
                    (sampleStore scheduledLesson publishedProgram bothThumbnails))) !! 100
    = Some publishedProgram.
Proof.
  assert (Hwf : wfStore (sampleStore scheduledLesson publishedProgram bothThumbnails))
    by (by apply wfStore_sample).
  split; [exact Hwf |].
  destruct (worker_run_touches_only_draft_programs (quietTick quietEnv)
              (sampleStore scheduledLesson publishedProgram bothThumbnails) 100 Hwf)
    as (_ & _ & H).
  change (programs (sampleStore scheduledLesson publishedProgram bothThumbnails) !! 100)
    with (Some publishedProgram) in H.
  destruct H as [H|[H _]]; [exact H | discriminate H].
Defined.

(** ** The report of a run *)

(** X4.  A run never throws.  When its scan rejects it writes nothing and
    only logs the start and the error.  When its scan succeeds its log
    ends with the summary, whose total is the number of lessons found and
    whose count of processed lessons is at most that total; with nothing
    found the database is returned as it was and the summary is 0, 0, 0. *)
Theorem worker_run_report te s :
  snd (tick te (freshWorker s)) = Ok tt
  ∧ (fails (scan te) LessonFind = true →
     processScheduledLessons te s =
       {| db := s; processedCount := 0; errorCount := 0;
          logged := [Starting; RunError (StorageError LessonFind)] |})
  ∧ (fails (scan te) LessonFind = false →
     (∃ entries,
        logged (processScheduledLessons te s) =
          (entries
           ++ [Completed (length (dueLessons s (now (scan te))))
                 (processedCount (processScheduledLessons te s))
                 (errorCount (processScheduledLessons te s))])%list)
     ∧ (processedCount (processScheduledLessons te s)
        ≤ length (dueLessons s (now (scan te))))%nat
     ∧ (dueLessons s (now (scan te)) = [] →
        processScheduledLessons te s =
          {| db := s; processedCount := 0; errorCount := 0;
             logged := [Starting; FoundLessons 0; Completed 0 0 0] |})).
Proof.
  split; [apply tick_returns |]. split; [apply run_scan_rejected |].
  intros Hscan. split; [| split].
  - rewrite run_scan_ok by done. cbn [logged processedCount errorCount]. by eexists.
  - rewrite (proj2 (run_db te s)). lia.
  - intros Hnil. rewrite run_scan_ok by done. rewrite Hnil. reflexivity.
Qed.

Lemma worker_run_report_witness :
  processScheduledLessons (quietTick quietEnv) storeDue
  = {| db := storeDue; processedCount := 0; errorCount := 1;
       logged := [Starting; FoundLessons 1;
                  ProcessingError 1 (MissingSchemaError "LessonAsset");
                  Completed 1 0 1] |}
  ∧ (processedCount (processScheduledLessons (quietTick quietEnv) storeDue)
     ≤ length (dueLessons storeDue (now quietEnv)))%nat.
Proof.
  split; [vm_compute; reflexivity |].
  destruct (worker_run_report (quietTick quietEnv) storeDue) as (_ & _ & H).
  destruct H as (_ & H & _); [reflexivity | exact H].
Defined.

(** ** What a run does with the lessons it finds *)

Section RunLog.
Local Open Scope list_scope.

Lemma lessonFrame_logged lesson w w' :
  lessonFrame lesson w w' →
  ∃ entries, logged w' = logged w ++ entries ∧ Forall lessonEntry entries.
Proof.
  intros (_ & _ & [[_ [Hlog|[st Hlog]]]|(err & _ & [Hlog|[st Hlog]])]).
  - exists []. split; [by rewrite app_nil_r | constructor].
  - eexists. split; [exact Hlog |]. by repeat constructor.
  - eexists. split; [exact Hlog |]. by repeat constructor.
  - eexists. split; [by rewrite Hlog, <- app_assoc |]. by repeat constructor.
Qed.

Lemma loop_logged te found w :
  ∃ entries, logged (fst (loop te found w)) = logged w ++ entries
             ∧ Forall lessonEntry entries.
Proof.
  revert w. induction found as [|lesson rest IH]; intros w.
  { exists []. split; [by rewrite app_nil_r | constructor]. }
  rewrite loop_cons.
  destruct (lessonFrame_logged lesson w _
              (processLesson_frame (perLesson te (Lesson._id lesson)) lesson w))
    as (entries1 & Hlog1 & Hall1).
  destruct (IH (fst (processLesson (perLesson te (Lesson._id lesson)) lesson w)))
    as (entries2 & Hlog2 & Hall2).
  exists (entries1 ++ entries2). split.
  - by rewrite Hlog2, Hlog1, app_assoc.
  - by apply Forall_app.
Qed.
End RunLog.

(** X5.  The worker as shipped publishes nothing.  Whatever the database
    and whatever rejects, a run leaves the database exactly as it was and
    counts no lesson as processed, and its log has no entry for a
    published lesson, an auto-published program or missing assets. *)
Theorem worker_run_writes_nothing te s entry :
  db (processScheduledLessons te s) = s
  ∧ processedCount (processScheduledLessons te s) = 0%nat
  ∧ (In entry (logged (processScheduledLessons te s)) →
     match entry with
     | MissingAssets _ _ | AutoPublishedProgram _ | PublishedLesson _ _ => False
     | _ => True
     end).
Proof.
  split; [apply run_db |]. split; [apply run_db |].
  destruct (fails (scan te) LessonFind) eqn:Hscan.
  { rewrite run_scan_rejected by done. cbn. intros [<-|[<-|[]]]; done. }
  rewrite run_scan_ok by done. cbn [logged].
  destruct (loop_logged te (dueLessons s (now (scan te)))
              (loopStart s (dueLessons s (now (scan te))))) as (entries & -> & Hall).
  cbn [loopStart logged]. rewrite !in_app_iff. cbn.
  intros [[[<-|[<-|[]]]|Hin]|[<-|[]]]; try done.
  apply list_elem_of_In in Hin.
  pose proof (proj1 (Forall_forall _ _) Hall entry Hin) as Hentry.
  by destruct entry.
Qed.

Lemma worker_run_writes_nothing_witness :
  db (processScheduledLessons (quietTick quietEnv) storeDue) = storeDue
  ∧ ¬ In (PublishedLesson 1 1000)
        (logged (processScheduledLessons (quietTick quietEnv) storeDue)).
Proof.
  destruct (worker_run_writes_nothing (quietTick quietEnv) storeDue
              (PublishedLesson 1 1000)) as (H1 & _ & H2).
  split; [exact H1 | exact H2].
Defined.

(** ** Counting in the loop *)


Lemma run_errorCount te s :
  fails (scan te) LessonFind = false →
  wfStore s →
  errorCount (processScheduledLessons te s) = length (dueLessons s (now (scan te))).
Proof.
  intros Hscan [Hwl _]. rewrite run_scan_ok by done. cbn [errorCount].
  rewrite loop_scheduled; [done |].
  intros lesson Hin. apply dueLessons_In in Hin as ([k Hk] & Hst & _).
  exists lesson. split; [| done]. cbn [loopStart db].
  by rewrite (Hwl _ _ Hk).
Qed.



(** ** Requests in sequence *)

Lemma wfStore_setLessons s k l :
  wfStore s → Lesson._id l = k → wfStore (setLessons s (<[k := l]> (lessons s))).
Proof.
  intros [Hwl Hwp] Hid. split; [| done]. cbn [lessons setLessons].
  by apply map_Forall_insert_2.
Qed.

Lemma runs_db s tes : run s (List.map WorkerRun tes) = s.
Proof.
  induction tes as [|te tes IH]; [done |].
  unfold run in *. cbn [List.map fold_left step].
  by rewrite (proj1 (run_db te s)).
Qed.

(** X7.  Scheduling and then running the worker does not publish.  When a
    lesson is scheduled for a time after the request's and a run scans at
    or after that time, the run finds the lesson, counts it as an error
    and as not processed, and leaves it stored as the schedule request
    left it: scheduled, with its [publishAt]. *)
Theorem schedule_then_run_stays_scheduled e te s id l t :
  fails e LessonFindById = false →
  fails e LessonSave = false →
  wfStore s →
  lessons s !! id = Some l →
  (now e < t)%Z →
  fails (scan te) LessonFind = false →
  (t ≤ now (scan te))%Z →
  ∃ l', lessons (run s [Schedule e id (Some (ValidDate t)); WorkerRun te]) !! id = Some l'
        ∧ Lesson.status l' = Lesson.scheduled
        ∧ Lesson.publishAt l' = Some t
        ∧ In l' (dueLessons (step s (Schedule e id (Some (ValidDate t)))) (now (scan te)))
        ∧ processedCount
            (processScheduledLessons te (step s (Schedule e id (Some (ValidDate t)))))
          = 0%nat
        ∧ (1 ≤ errorCount
                 (processScheduledLessons te
                    (step s (Schedule e id (Some (ValidDate t))))))%nat.
Proof.
  intros Hfind Hsave Hwf Hl Hfuture Hscan Hdue.
  assert (Hid : Lesson._id l = id) by (destruct Hwf as [Hwl _]; exact (Hwl _ _ Hl)).
  unfold run. cbn [fold_left step].
  rewrite (scheduleLesson_future e s id l t) by done. cbn [fst].
  set (l1 := saved e l Lesson.scheduled (Some t) None).
  set (s1 := setLessons s (<[id := l1]> (lessons s))).
  assert (Hst : Lesson.status l1 = Lesson.scheduled)
    by (unfold l1, saved; by autorewrite with timestamps).
  assert (Hpa : Lesson.publishAt l1 = Some t)
    by (unfold l1, saved; by autorewrite with timestamps).
  assert (Hwf1 : wfStore s1).
  { apply wfStore_setLessons; [done |]. unfold l1, saved.
    by autorewrite with timestamps. }
  assert (Hl1 : lessons s1 !! id = Some l1) by apply lookup_insert_eq.
  assert (Hin : In l1 (dueLessons s1 (now (scan te)))).
  { apply dueLessons_In. split; [by exists id |]. split; [done |]. by exists t. }
  exists l1. rewrite (proj1 (run_db te s1)).
  do 4 (split; [done |]).
  split; [apply run_db |]. rewrite (run_errorCount te s1 Hscan Hwf1).
  destruct (dueLessons s1 (now (scan te))); [done | cbn; lia].
Qed.

Lemma schedule_then_run_stays_scheduled_witness :
  wfStore storeDraft
  ∧ lessons storeDraft !! 1 = Some draftLesson
  ∧ ∃ l', lessons (run storeDraft
                     [Schedule quietEnv 1 (Some (ValidDate 2000));
                      WorkerRun (quietTick laterEnv)]) !! 1 = Some l'
          ∧ Lesson.status l' = Lesson.scheduled
          ∧ Lesson.publishAt l' = Some 2000%Z.
Proof.
  assert (Hwf : wfStore storeDraft) by (by apply wfStore_sample).
  split; [exact Hwf |]. split; [reflexivity |].
  destruct (schedule_then_run_stays_scheduled quietEnv (quietTick laterEnv) storeDraft 1
              draftLesson 2000) as (l' & H1 & H2 & H3 & _);
    [reflexivity | reflexivity | exact Hwf | reflexivity | cbn; lia | reflexivity
    | cbn; lia |].
  exists l'. split; [exact H1 |]. split; [exact H2 | exact H3].
Defined.

(** X8.  Archiving takes a lesson out of the schedule for good: once
    [archiveLesson] has saved the lesson, no sequence of worker runs,
    whatever their environments, changes it; it stays stored as the
    archive request saved it, archived with the [publishAt] and
    [publishedAt] it had, even when that [publishAt] is due. *)
Theorem archived_lesson_is_never_published e s id l tes :
  fails e LessonFindById = false →
  fails e LessonSave = false →
  wfStore s →
  lessons s !! id = Some l →
  lessons (run s (Archive e id :: List.map WorkerRun tes)) !! id
    = Some (saved e l Lesson.archived (Lesson.publishAt l) (Lesson.publishedAt l))
  ∧ Lesson.status
      (saved e l Lesson.archived (Lesson.publishAt l) (Lesson.publishedAt l))
    = Lesson.archived
  ∧ Lesson.publishAt
      (saved e l Lesson.archived (Lesson.publishAt l) (Lesson.publishedAt l))
    = Lesson.publishAt l
  ∧ Lesson.publishedAt
      (saved e l Lesson.archived (Lesson.publishAt l) (Lesson.publishedAt l))
    = Lesson.publishedAt l.
Proof.
  intros Hfind Hsave Hwf Hl.
  assert (Hid : Lesson._id l = id) by (destruct Hwf as [Hwl _]; exact (Hwl _ _ Hl)).
  split.
  - unfold run. cbn [fold_left step].
    rewrite (archiveLesson_saved e s id l) by done. cbn [fst].
    fold (run (setLessons s
                 (<[id := saved e l Lesson.archived (Lesson.publishAt l)
                            (Lesson.publishedAt l)]> (lessons s)))
            (List.map WorkerRun tes)).
    rewrite runs_db. apply lookup_insert_eq.
  - unfold saved. by autorewrite with timestamps.
Qed.

Lemma archived_lesson_is_never_published_witness :
  wfStore storeDue
  ∧ lessons storeDue !! 1 = Some scheduledLesson
  ∧ lessons (run storeDue
               (Archive quietEnv 1
                :: List.map WorkerRun [quietTick quietEnv; quietTick laterEnv])) !! 1
    = Some (Lesson.touch (sampleLesson Lesson.archived (Some 900%Z) None) 1001).
Proof.
  assert (Hwf : wfStore storeDue) by (by apply wfStore_sample).
  split; [exact Hwf |]. split; [reflexivity |].
  exact (proj1 (archived_lesson_is_never_published quietEnv storeDue 1 scheduledLesson
                  [quietTick quietEnv; quietTick laterEnv] eq_refl eq_refl Hwf eq_refl)).
Defined.

(** X21.  A lesson that a run finds is found again by every later scan:
    whatever the runs in between and whatever rejects in them, a scan at
    the same or a later time returns every lesson the first scan
    returned, unchanged. *)
Theorem later_scan_finds_the_same_lessons te tes s current l :
  (now (scan te) ≤ current)%Z →
  In l (dueLessons s (now (scan te))) →
  In l (dueLessons (run s (List.map WorkerRun (te :: tes))) current).
Proof.
  intros Hlater Hin. rewrite runs_db.
  apply dueLessons_In in Hin as (Hk & Hst & t & Hpa & Ht).
  apply dueLessons_In. split; [done |]. split; [done |]. exists t. split; [done | lia].
Qed.

Lemma later_scan_finds_the_same_lessons_witness :
  In scheduledLesson (dueLessons storeDue (now (scan (quietTick quietEnv))))
  ∧ In scheduledLesson
       (dueLessons (run storeDue
                      (List.map WorkerRun [quietTick quietEnv; quietTick laterEnv]))
          3000).
Proof.
  assert (Hin : In scheduledLesson (dueLessons storeDue (now (scan (quietTick quietEnv))))).
  { vm_compute. left. reflexivity. }
  split; [exact Hin |].
  apply (later_scan_finds_the_same_lessons (quietTick quietEnv) [quietTick laterEnv]
           storeDue 3000 scheduledLesson); [cbn; lia | exact Hin].
Defined.

(** ** Publish without a parent *)

(** X9.  A lesson whose term is not stored, or whose term's program is not
    stored, can still be published: with complete thumbnails and the
    reads and the save succeeding, [publish] returns the lesson, the
    request leaves it stored as published, and the program collection is
    left as it was. *)
Theorem publish_without_parent_succeeds e s id l :
  fails e LessonFindById = false →
  fails e LessonAssetFind = false →
  fails e LessonSave = false →
  fails e TermFindById = false →
  fails e ProgramFindById = false →
  lessons s !! id = Some l →
  Lesson._id l = id →
  hasThumbnail s l "portrait" →
  hasThumbnail s l "landscape" →
  (∀ term, terms s !! Lesson.termId l = Some term →
           programs s !! Term.programId term = None) →
  ∃ l', publish e l s = (setLessons s (<[id := l']> (lessons s)), Ok l')
        ∧ fst (publishLesson e id s) = setLessons s (<[id := l']> (lessons s))
        ∧ Lesson.status l' = Lesson.published
        ∧ Lesson.publishedAt l' = Some (now e)
        ∧ programs (fst (publishLesson e id s)) = programs s.
Proof.
  intros Hfind Ha Hsave Htf Hpf Hl Hid Hp Hls Hnone. subst id.
  pose proof (publish_no_parent e s l Ha Hsave Htf (or_intror Hpf) Hl
                (isValid_thumbnails s l Hp Hls) Hnone) as Hrun.
  eexists. rewrite (publishLesson_run e _ s l) by done. rewrite Hrun.
  split; [reflexivity |]. split; [reflexivity |].
  unfold saved. autorewrite with timestamps. by repeat split.
Qed.

Lemma publish_without_parent_succeeds_witness :
  lessons (setPrograms storeDraft ∅) !! 1 = Some draftLesson
  ∧ ∃ l', publish quietEnv draftLesson (setPrograms storeDraft ∅) =
            (setLessons (setPrograms storeDraft ∅)
               (<[1 := l']> (lessons (setPrograms storeDraft ∅))), Ok l')
          ∧ Lesson.status l' = Lesson.published.
Proof.
  split; [reflexivity |].
  destruct (publish_without_parent_succeeds quietEnv (setPrograms storeDraft ∅) 1
              draftLesson) as (l' & H1 & _ & H2 & _); try reflexivity.
  - apply available_hasThumbnail. reflexivity.
  - apply available_hasThumbnail. reflexivity.
  - exists l'. by split.
Defined.

Lemma deleteTerm_run e s id term :
  fails (request e) TermFindById = false →
  rejects e TermFindByIdAndDelete = None →
  terms s !! id = Some term →
  deleteTerm e id s = (setTerms s (delete id (terms s)), Ok tt).
Proof.
  intros Hfind Hdel Hterm. unfold deleteTerm, bind.
  rewrite Term_findById_run, Hterm by done.
  unfold Term_findByIdAndDelete, awaitCall. by rewrite Hdel.
Qed.

(** X10.  [deleteTerm] deletes the term document and nothing else: the
    lessons of the term stay stored, now without a term.  [publish] on
    such a lesson afterwards returns it published, the publish request
    leaves it stored so, and a draft program the term belonged to is not
    published by it. *)
Theorem delete_term_leaves_its_lessons e e' s tid term id l :
  fails (request e) TermFindById = false →
  rejects e TermFindByIdAndDelete = None →
  terms s !! tid = Some term →
  lessons s !! id = Some l →
  Lesson._id l = id →
  Lesson.termId l = tid →
  hasThumbnail s l "portrait" →
  hasThumbnail s l "landscape" →
  fails e' LessonFindById = false →
  fails e' LessonAssetFind = false →
  fails e' LessonSave = false →
  fails e' TermFindById = false →
  snd (deleteTerm e tid s) = Ok tt
  ∧ terms (fst (deleteTerm e tid s)) !! tid = None
  ∧ lessons (fst (deleteTerm e tid s)) = lessons s
  ∧ programs (fst (deleteTerm e tid s)) = programs s
  ∧ lessonAssets (fst (deleteTerm e tid s)) = lessonAssets s
  ∧ snd (publish e' l (fst (deleteTerm e tid s)))
    = Ok (saved e' l Lesson.published None (Some (now e')))
  ∧ Lesson.status (saved e' l Lesson.published None (Some (now e'))) = Lesson.published
  ∧ lessons (fst (publishLesson e' id (fst (deleteTerm e tid s)))) !! id
    = Some (saved e' l Lesson.published None (Some (now e')))
  ∧ programs (fst (publishLesson e' id (fst (deleteTerm e tid s)))) = programs s.
Proof.
  intros Hfind Hdel Hterm Hl Hid Htid Hp Hls Hfind' Ha' Hsave' Htf'.
  rewrite (deleteTerm_run e s tid term) by done. cbn [fst snd].
  split; [done |]. split; [apply lookup_delete_eq |]. do 3 (split; [done |]).
  rewrite (publishLesson_run e' id _ l) by done. rewrite answered_fst. subst id.
  rewrite (publish_no_parent e' (setTerms s (delete tid (terms s))) l); try done.
  - cbn [fst snd lessons programs setLessons setTerms]. split; [done |].
    split; [unfold saved; by autorewrite with timestamps |].
    split; [apply lookup_insert_eq | done].
  - left. cbn [terms setTerms]. rewrite Htid. apply lookup_delete_eq.
  - by apply (isValid_thumbnails s l).
  - intros term'. cbn [terms setTerms]. rewrite Htid, lookup_delete_eq. done.
Qed.

Lemma delete_term_leaves_its_lessons_witness :
  terms storeDraft !! 10 = Some sampleTerm
  ∧ lessons (fst (deleteTerm quietCalls 10 storeDraft)) = lessons storeDraft
  ∧ Lesson.status <$>
      lessons (fst (publishLesson quietEnv 1 (fst (deleteTerm quietCalls 10 storeDraft))))
        !! 1
    = Some Lesson.published
  ∧ programs (fst (publishLesson quietEnv 1 (fst (deleteTerm quietCalls 10 storeDraft))))
      !! 100
    = Some draftProgram.
Proof.
  split; [reflexivity |].
  destruct (delete_term_leaves_its_lessons quietCalls quietEnv storeDraft 10 sampleTerm 1
              draftLesson) as (_ & _ & H1 & _ & _ & _ & H2 & H3 & H4); try reflexivity.
  - apply available_hasThumbnail. reflexivity.
  - apply available_hasThumbnail. reflexivity.
  - split; [exact H1 |]. split; [rewrite H3; exact (f_equal Some H2) |]. by rewrite H4.
Defined.

(** ** What the client is told *)

(** X11.  When publish is refused for missing thumbnails the response is
    the middleware's default: status 500, code INTERNAL_SERVER_ERROR and
    the fixed message; the thrown error has no status code, so neither its
    message nor the missing variants reach the client. *)
Theorem incomplete_assets_answered_with_500 e s id l :
  fails e LessonFindById = false →
  fails e LessonAssetFind = false →
  lessons s !! id = Some l →
  ¬ (hasThumbnail s l "portrait" ∧ hasThumbnail s l "landscape") →
  respond (snd (publishLesson e id s)) =
    Some {| httpStatus := 500;
            body := ErrorBody "INTERNAL_SERVER_ERROR" "Internal server error" [] |}.
Proof.
  intros Hfind Ha Hl Hmiss.
  assert (Hv : isValid (assetCheck s l) = false).
  { apply not_true_iff_false. by rewrite isValid_spec. }
  rewrite (publishLesson_run e id s l) by done.
  unfold publish, bind. rewrite validateAssets_run by done.
  rewrite Hv. reflexivity.
Qed.

Lemma incomplete_assets_answered_with_500_witness :
  lessons storeMissingLandscape !! 1 = Some draftLesson
  ∧ respond (snd (publishLesson quietEnv 1 storeMissingLandscape)) =
      Some {| httpStatus := 500;
              body := ErrorBody "INTERNAL_SERVER_ERROR" "Internal server error" [] |}.
Proof.
  split; [reflexivity |].
  apply (incomplete_assets_answered_with_500 quietEnv storeMissingLandscape 1 draftLesson);
    [reflexivity | reflexivity | reflexivity |].
  rewrite <- isValid_spec. vm_compute. discriminate.
Defined.

(** X12.  The answers of the schedule request, none of which writes.  A
    missing date is answered 400 VALIDATION_ERROR before the lesson is
    looked up, so even for an unknown lesson and a failing database; an
    unknown lesson with a date is answered 404; a date that is not in the
    future is answered with the default 500; a date that is no date at
    all passes the future check and is answered 400 by validation. *)
Theorem schedule_rejections e s id :
  (scheduleLesson e id None s = (s, Throw (AppError "Publish date is required" 400 "VALIDATION_ERROR"))
   ∧ respond (snd (scheduleLesson e id None s)) =
       Some {| httpStatus := 400;
               body := ErrorBody "VALIDATION_ERROR" "Publish date is required" [] |})
  ∧ (fails e LessonFindById = false →
     (∀ d, lessons s !! id = None →
        fst (scheduleLesson e id (Some d) s) = s
        ∧ respond (snd (scheduleLesson e id (Some d) s)) =
            Some {| httpStatus := 404;
                    body := ErrorBody "RESOURCE_NOT_FOUND" "Lesson not found" [] |})
     ∧ (∀ l t, lessons s !! id = Some l → (t ≤ now e)%Z →
        fst (scheduleLesson e id (Some (ValidDate t)) s) = s
        ∧ respond (snd (scheduleLesson e id (Some (ValidDate t)) s)) =
            Some {| httpStatus := 500;
                    body := ErrorBody "INTERNAL_SERVER_ERROR" "Internal server error" [] |})
     ∧ (∀ l, lessons s !! id = Some l →
        fst (scheduleLesson e id (Some InvalidDate) s) = s
        ∧ respond (snd (scheduleLesson e id (Some InvalidDate) s)) =
            Some {| httpStatus := 400;
                    body := ErrorBody "VALIDATION_ERROR" "Validation failed" ["publishAt"] |})).
Proof.
  split; [by split |]. intros Hfind. split; [| split].
  - intros d Hnone. unfold scheduleLesson, bind.
    rewrite Lesson_findById_run, Hnone by done. by split.
  - intros l t Hl Ht. rewrite (scheduleLesson_not_future e s id l t) by done. by split.
  - intros l Hl. rewrite (scheduleLesson_run e id _ s l) by done. by split.
Qed.

Lemma schedule_rejections_witness :
  respond (snd (scheduleLesson quietEnv 7 None storeDraft)) =
    Some {| httpStatus := 400;
            body := ErrorBody "VALIDATION_ERROR" "Publish date is required" [] |}
  ∧ respond (snd (scheduleLesson quietEnv 1 (Some (ValidDate 1000)) storeDraft)) =
      Some {| httpStatus := 500;
              body := ErrorBody "INTERNAL_SERVER_ERROR" "Internal server error" [] |}.
Proof.
  destruct (schedule_rejections quietEnv storeDraft 7) as [[_ H400] _].
  split; [exact H400 |].
  destruct (schedule_rejections quietEnv storeDraft 1) as [_ H].
  destruct (H eq_refl) as (_ & H500 & _).
  destruct (H500 draftLesson 1000%Z eq_refl) as [_ Hr]; [cbn; lia | exact Hr].
Defined.



(** ** Listing the lessons of a term *)

#[local] Instance byLessonNumber_trans : Transitive byLessonNumber.
Proof. unfold byLessonNumber. intros a b c. lia. Qed.

#[local] Instance byLessonNumber_total : Total byLessonNumber.
Proof. unfold byLessonNumber. intros a b. lia. Qed.

Lemma inTerm_In s termId l :
  In l (List.filter (inTerm termId) (allLessons s)) ↔
  (∃ k, lessons s !! k = Some l) ∧ Lesson.termId l = termId.
Proof.
  rewrite filter_In, allLessons_In. unfold inTerm.
  by rewrite bool_decide_eq_true.
Qed.

(** X13.  [getLessons] answers 404 when the term is not stored, even if
    lessons still refer to it.  Otherwise its query, when it succeeds,
    returns exactly the stored lessons of that term in ascending order of
    lesson number, and nothing is written; but only the empty list is
    sent: for a term that has a lesson the request ends in the
    [TypeError] of the serialisation. *)
Theorem getLessons_lists_the_term e s termId :
  fails e TermFindById = false →
  (terms s !! termId = None →
     getLessons e termId s =
       (s, Throw (AppError "Term not found" 404 "RESOURCE_NOT_FOUND")))
  ∧ (is_Some (terms s !! termId) → fails e LessonFind = false →
     ∃ found,
       Lesson_findByTerm e termId s = (s, Ok found)
       ∧ (∀ l, In l found ↔
               (∃ k, lessons s !! k = Some l) ∧ Lesson.termId l = termId)
       ∧ StronglySorted
           (λ a b, (Lesson.lessonNumber a ≤ Lesson.lessonNumber b)%nat) found
       ∧ (found = [] →
          getLessons e termId s =
            (s, Ok {| httpStatus := 200; body := LessonsBody [] |}))
       ∧ (found ≠ [] → getLessons e termId s = (s, Throw TypeError))).
Proof.
  intros Htf. split.
  - intros Hnone. unfold getLessons, bind.
    by rewrite Term_findById_run, Hnone by done.
  - intros [term Hterm] Hfind.
    assert (Hquery : Lesson_findByTerm e termId s =
              (s, Ok (merge_sort byLessonNumber
                        (List.filter (inTerm termId) (allLessons s))))).
    { unfold Lesson_findByTerm. by rewrite await_ok. }
    assert (Hrun : getLessons e termId s =
              res_json_lessons
                (merge_sort byLessonNumber
                   (List.filter (inTerm termId) (allLessons s))) s).
    { unfold getLessons. unfold bind at 1. rewrite Term_findById_run, Hterm by done.
      unfold bind. by rewrite Hquery. }
    eexists. split; [exact Hquery |]. split; [| split; [| split]].
    + intros l. rewrite merge_sort_In. apply inTerm_In.
    + apply (StronglySorted_merge_sort byLessonNumber).
    + intros Hnil. by rewrite Hrun, Hnil.
    + intros Hne. rewrite Hrun, res_json_lessons_run.
      by destruct (merge_sort _ _).
Qed.

Lemma getLessons_lists_the_term_witness :
  getLessons quietEnv 11 storeDraft =
    (storeDraft, Throw (AppError "Term not found" 404 "RESOURCE_NOT_FOUND"))
  ∧ (∃ found, Lesson_findByTerm quietEnv 10 storeDraft = (storeDraft, Ok found)
              ∧ (In draftLesson found ↔
                   (∃ k, lessons storeDraft !! k = Some draftLesson)
                   ∧ Lesson.termId draftLesson = 10))
  ∧ getLessons quietEnv 10 storeDraft = (storeDraft, Throw TypeError)
  ∧ getLessons quietEnv 10 (setLessons storeDraft ∅) =
      (setLessons storeDraft ∅, Ok {| httpStatus := 200; body := LessonsBody [] |}).
Proof.
  split; [| split; [| split]].
  - by apply (getLessons_lists_the_term quietEnv storeDraft 11).
  - destruct (getLessons_lists_the_term quietEnv storeDraft 10 eq_refl) as [_ H].
    destruct H as (found & H1 & H2 & _); [by eexists | reflexivity |].
    exists found. split; [exact H1 | apply H2].
  - destruct (getLessons_lists_the_term quietEnv storeDraft 10 eq_refl) as [_ H].
    destruct H as (found & H1 & H2 & _ & _ & H3); [by eexists | reflexivity |].
    apply H3. intros ->. apply (proj2 (H2 draftLesson)). split; [by exists 1 | reflexivity].
  - destruct (getLessons_lists_the_term quietEnv (setLessons storeDraft ∅) 10 eq_refl)
      as [_ H].
    destruct H as (found & H1 & H2 & _ & H3 & _); [by eexists | reflexivity |].
    apply H3. destruct found as [|l rest]; [done |].
    destruct (proj1 (H2 l) (or_introl eq_refl)) as [[k Hk] _].
    cbn [lessons setLessons] in Hk. by rewrite lookup_empty in Hk.
Defined.

(** ** Counting lessons *)

Lemma length_filter_Permutation {A} (P : A → bool) (xs ys : list A) :
  xs ≡ₚ ys → length (List.filter P xs) = length (List.filter P ys).
Proof.
  induction 1 as [|x xs ys _ IH|x y xs|xs ys zs _ IH1 _ IH2]; cbn.
  - done.
  - destruct (P x); cbn; by rewrite IH.
  - destruct (P x), (P y); done.
  - by rewrite IH1.
Qed.

Lemma count_after_delete (P : Lesson.t → bool) s id l :
  lessons s !! id = Some l →
  (length (List.filter P (allLessons (setLessons s (delete id (lessons s)))))
   + (if P l then 1 else 0))%nat
  = length (List.filter P (allLessons s)).
Proof.
  intros Hl. unfold allLessons. cbn [lessons setLessons].
  rewrite <- (length_filter_Permutation P _ _
                (Permutation_map snd (map_to_list_delete (lessons s) id l Hl))).
  cbn. destruct (P l); cbn; lia.
Qed.

Lemma count_after_save (P : Lesson.t → bool) s id l l' :
  lessons s !! id = Some l →
  (length (List.filter P (allLessons (setLessons s (<[id := l']> (lessons s)))))
   + (if P l then 1 else 0))%nat
  = (length (List.filter P (allLessons s)) + (if P l' then 1 else 0))%nat.
Proof.
  intros Hl. rewrite <- (count_after_delete P s id l Hl).
  unfold allLessons. cbn [lessons setLessons].
  rewrite <- (insert_delete_eq (lessons s)).
  rewrite (length_filter_Permutation P _ _
             (Permutation_map snd
                (map_to_list_insert (delete id (lessons s)) id l'
                   (lookup_delete_eq _ _)))).
  cbn. destruct (P l'), (P l); cbn; lia.
Qed.

Lemma Lesson_countDocuments_run e P s :
  rejects e LessonCountDocuments = None →
  Lesson_countDocuments e P s = (s, Ok (length (List.filter P (allLessons s)))).
Proof. intros Hq. unfold Lesson_countDocuments, awaitCall. by rewrite Hq. Qed.

Lemma saved_status e l st pa pd : Lesson.status (saved e l st pa pd) = st.
Proof. unfold saved. by autorewrite with timestamps. Qed.

(** X15.  Publishing a lesson that was not published raises the count of
    published lessons of its term by one, and changes neither that count
    for any other term nor the count of all lessons of any term. *)
Theorem publish_raises_published_count e e2 s id l this :
  fails e LessonFindById = false →
  fails e LessonAssetFind = false →
  fails e LessonSave = false →
  rejects e2 LessonCountDocuments = None →
  lessons s !! id = Some l →
  Lesson._id l = id →
  Lesson.status l ≠ Lesson.published →
  hasThumbnail s l "portrait" →
  hasThumbnail s l "landscape" →
  ∃ total published,
    Term_getLessonsCount e2 this s = (s, Ok total)
    ∧ Term_getPublishedLessonsCount e2 this s = (s, Ok published)
    ∧ Term_getLessonsCount e2 this (fst (publishLesson e id s))
      = (fst (publishLesson e id s), Ok total)
    ∧ Term_getPublishedLessonsCount e2 this (fst (publishLesson e id s))
      = (fst (publishLesson e id s),
         Ok (if bool_decide (Lesson.termId l = Term._id this)
             then S published else published)).
Proof.
  intros Hfind Ha Hsave Hq Hl Hid Hst Hp Hls.
  destruct (publishLesson_lesson_saved e s id l Hfind Ha Hsave Hl Hid
              (isValid_thumbnails s l Hp Hls)) as (Hsaved & _).
  set (l' := saved e l Lesson.published None (Some (now e))) in Hsaved.
  unfold Term_getLessonsCount, Term_getPublishedLessonsCount.
  rewrite !Lesson_countDocuments_run by done. do 2 eexists.
  split; [reflexivity |]. split; [reflexivity |].
  assert (Hcount : ∀ P,
            length (List.filter P (allLessons (fst (publishLesson e id s))))
            = length (List.filter P
                        (allLessons (setLessons s (<[id := l']> (lessons s)))))).
  { intros P. unfold allLessons. cbn [lessons setLessons]. by rewrite Hsaved. }
  rewrite !Hcount. split; f_equal; f_equal.
  - pose proof (count_after_save (inTerm (Term._id this)) s id l l' Hl) as Hc.
    unfold inTerm in *. unfold l' in Hc. rewrite saved_termId in Hc. fold l' in Hc.
    destruct (bool_decide _); lia.
  - pose proof (count_after_save (publishedInTerm (Term._id this)) s id l l' Hl) as Hc.
    unfold publishedInTerm, inTerm in *.
    unfold l' in Hc. rewrite saved_termId, saved_status in Hc. fold l' in Hc.
    rewrite (bool_decide_eq_false_2 (Lesson.status l = _)) in Hc by done.
    rewrite (bool_decide_eq_true_2 (Lesson.published = _)) in Hc by done.
    rewrite andb_false_r, andb_true_r in Hc.
    destruct (bool_decide (Lesson.termId l = Term._id this)); lia.
Qed.

Lemma publish_raises_published_count_witness :
  lessons storeDraft !! 1 = Some draftLesson
  ∧ ∃ total published,
      Term_getPublishedLessonsCount quietCalls sampleTerm storeDraft
      = (storeDraft, Ok published)
      ∧ Term_getLessonsCount quietCalls sampleTerm (fst (publishLesson quietEnv 1 storeDraft))
        = (fst (publishLesson quietEnv 1 storeDraft), Ok total)
      ∧ Term_getPublishedLessonsCount quietCalls sampleTerm
          (fst (publishLesson quietEnv 1 storeDraft))
        = (fst (publishLesson quietEnv 1 storeDraft), Ok (S published)).
Proof.
  split; [reflexivity |].
  destruct (publish_raises_published_count quietEnv quietCalls storeDraft 1 draftLesson
              sampleTerm) as (total & published & _ & H2 & H3 & H4);
    try reflexivity.
  - discriminate.
  - apply available_hasThumbnail. reflexivity.
  - apply available_hasThumbnail. reflexivity.
  - exists total, published. split; [exact H2 |]. split; [exact H3 | exact H4].
Defined.

(** X16.  Archiving a published lesson lowers the count of published
    lessons of its term by one and leaves the count of all its lessons. *)
Theorem archive_lowers_published_count e e2 s id l this :
  fails e LessonFindById = false →
  fails e LessonSave = false →
  rejects e2 LessonCountDocuments = None →
  lessons s !! id = Some l →
  Lesson._id l = id →
  Lesson.status l = Lesson.published →
  Lesson.termId l = Term._id this →
  ∃ total published,
    Term_getLessonsCount e2 this s = (s, Ok total)
    ∧ Term_getPublishedLessonsCount e2 this s = (s, Ok (S published))
    ∧ Term_getLessonsCount e2 this (fst (archiveLesson e id s))
      = (fst (archiveLesson e id s), Ok total)
    ∧ Term_getPublishedLessonsCount e2 this (fst (archiveLesson e id s))
      = (fst (archiveLesson e id s), Ok published).
Proof.
  intros Hfind Hsave Hq Hl Hid Hst Hterm.
  rewrite (archiveLesson_saved e s id l) by done. cbn [fst].
  set (l' := saved e l Lesson.archived (Lesson.publishAt l) (Lesson.publishedAt l)).
  unfold Term_getLessonsCount, Term_getPublishedLessonsCount.
  rewrite !Lesson_countDocuments_run by done.
  pose proof (count_after_save (inTerm (Term._id this)) s id l l' Hl) as Hc1.
  pose proof (count_after_save (publishedInTerm (Term._id this)) s id l l' Hl) as Hc2.
  unfold publishedInTerm, inTerm in *.
  unfold l' in Hc1, Hc2. rewrite saved_termId in Hc1, Hc2. rewrite saved_status in Hc2.
  fold l' in Hc1, Hc2.
  rewrite (bool_decide_eq_true_2 (Lesson.termId l = _)) in Hc1, Hc2 by done.
  rewrite (bool_decide_eq_true_2 (Lesson.status l = _)) in Hc2 by done.
  rewrite (bool_decide_eq_false_2 (Lesson.archived = _)) in Hc2 by done.
  cbn in Hc1, Hc2.
  exists (length (List.filter (λ l0, bool_decide (Lesson.termId l0 = Term._id this))
                    (allLessons s))).
  exists (length (List.filter
                    (λ l0, bool_decide (Lesson.termId l0 = Term._id this)
                           && bool_decide (Lesson.status l0 = Lesson.published))
                    (allLessons (setLessons s (<[id := l']> (lessons s)))))).
  split; [done |]. split; [f_equal; f_equal; lia |].
  split; [f_equal; f_equal; lia | done].
Qed.

Lemma archive_lowers_published_count_witness :
  lessons storePublished !! 1 = Some publishedLesson
  ∧ ∃ total published,
      Term_getPublishedLessonsCount quietCalls sampleTerm storePublished
      = (storePublished, Ok (S published))
      ∧ Term_getLessonsCount quietCalls sampleTerm
          (fst (archiveLesson quietEnv 1 storePublished))
        = (fst (archiveLesson quietEnv 1 storePublished), Ok total)
      ∧ Term_getPublishedLessonsCount quietCalls sampleTerm
          (fst (archiveLesson quietEnv 1 storePublished))
        = (fst (archiveLesson quietEnv 1 storePublished), Ok published).
Proof.
  split; [reflexivity |].
  destruct (archive_lowers_published_count quietEnv quietCalls storePublished 1
              publishedLesson sampleTerm)
    as (total & published & _ & H2 & H3 & H4); try reflexivity.
  exists total, published. split; [exact H2 |]. split; [exact H3 | exact H4].
Defined.

(** ** Deleting a lesson *)

(** X17.  [deleteLesson] answers 404 for a lesson that is not stored and
    changes nothing.  For a stored lesson it removes that document alone:
    every other lesson, the terms, the programs and the assets, those of
    the deleted lesson included, stay; afterwards reading or publishing
    the lesson is answered 404. *)
Theorem delete_lesson_removes_only_the_lesson e e' s id :
  fails (request e) LessonFindById = false →
  (lessons s !! id = None →
     deleteLesson e id s =
       (s, Throw (AppError "Lesson not found" 404 "RESOURCE_NOT_FOUND")))
  ∧ (is_Some (lessons s !! id) → rejects e LessonFindByIdAndDelete = None →
     deleteLesson e id s = (setLessons s (delete id (lessons s)), Ok tt)
     ∧ lessons (fst (deleteLesson e id s)) !! id = None
     ∧ (∀ k, k ≠ id → lessons (fst (deleteLesson e id s)) !! k = lessons s !! k)
     ∧ lessonAssets (fst (deleteLesson e id s)) = lessonAssets s
     ∧ (fails e' LessonFindById = false →
        getLesson e' id (fst (deleteLesson e id s)) =
          (fst (deleteLesson e id s),
           Throw (AppError "Lesson not found" 404 "RESOURCE_NOT_FOUND"))
        ∧ publishLesson e' id (fst (deleteLesson e id s)) =
            (fst (deleteLesson e id s),
             Throw (AppError "Lesson not found" 404 "RESOURCE_NOT_FOUND")))).
Proof.
  intros Hfind. split.
  - intros Hnone. unfold deleteLesson, bind.
    by rewrite Lesson_findById_run, Hnone by done.
  - intros [l Hl] Hdel.
    assert (Hrun : deleteLesson e id s = (setLessons s (delete id (lessons s)), Ok tt)).
    { unfold deleteLesson, bind. rewrite Lesson_findById_run, Hl by done.
      unfold Lesson_findByIdAndDelete, awaitCall. by rewrite Hdel. }
    rewrite Hrun. cbn [fst lessons lessonAssets setLessons].
    split; [done |]. split; [apply lookup_delete_eq |].
    split; [intros k Hk; by rewrite lookup_delete_ne |]. split; [done |].
    intros Hfind'. unfold getLesson, publishLesson, bind.
    rewrite !Lesson_findById_run by done. cbn [lessons setLessons].
    by rewrite lookup_delete_eq.
Qed.

Lemma delete_lesson_removes_only_the_lesson_witness :
  lessons storeDraft !! 1 = Some draftLesson
  ∧ lessons (fst (deleteLesson quietCalls 1 storeDraft)) !! 1 = None
  ∧ lessonAssets (fst (deleteLesson quietCalls 1 storeDraft)) = bothThumbnails
  ∧ snd (publishLesson quietEnv 1 (fst (deleteLesson quietCalls 1 storeDraft)))
    = Throw (AppError "Lesson not found" 404 "RESOURCE_NOT_FOUND").
Proof.
  split; [reflexivity |].
  destruct (delete_lesson_removes_only_the_lesson quietCalls quietEnv storeDraft 1 eq_refl)
    as [_ H].
  destruct H as (_ & H1 & _ & H2 & H3); [by eexists | reflexivity |].
  destruct (H3 eq_refl) as [_ H4].
  split; [exact H1 |]. split; [exact H2 |]. by rewrite H4.
Defined.

(** ** A program and its published lessons *)

Lemma length_filter_pos {A} (P : A → bool) (xs : list A) x :
  In x xs → P x = true → (1 ≤ length (List.filter P xs))%nat.
Proof.
  intros Hin HP. assert (Hx : In x (List.filter P xs)) by (by apply filter_In).
  destruct (List.filter P xs); [done | cbn; lia].
Qed.

Lemma allTerms_In s term : In term (allTerms s) ↔ ∃ k, terms s !! k = Some term.
Proof.
  unfold allTerms. rewrite in_map_iff. split.
  - intros ([k t'] & <- & Hin). exists k.
    by apply list_elem_of_In, elem_of_map_to_list in Hin.
  - intros [k Hk]. exists (k, term). split; [done |].
    by apply list_elem_of_In, elem_of_map_to_list.
Qed.

(** X18.  After a [publishLesson] in which every database call succeeds,
    of a lesson whose term and program are stored under their ids, the
    program is not a draft (a draft one has become published) and its
    [getPublishedLessonsCount] is at least 1. *)
Theorem published_lesson_counts_for_its_program e e2 s id l term program :
  (∀ op, fails e op = false) →
  rejects e2 TermFind = None →
  rejects e2 LessonCountDocuments = None →
  lessons s !! id = Some l →
  Lesson._id l = id →
  hasThumbnail s l "portrait" →
  hasThumbnail s l "landscape" →
  terms s !! Lesson.termId l = Some term →
  Term._id term = Lesson.termId l →
  programs s !! Term.programId term = Some program →
  Program._id program = Term.programId term →
  ∃ p' n,
    programs (fst (publishLesson e id s)) !! Term.programId term = Some p'
    ∧ Program.status p' ≠ Program.draft
    ∧ (Program.status program = Program.draft → Program.status p' = Program.published)
    ∧ Program_getPublishedLessonsCount e2 p' (fst (publishLesson e id s))
      = (fst (publishLesson e id s), Ok n)
    ∧ (1 ≤ n)%nat.
Proof.
  intros Hq Hq1 Hq2 Hl Hid Hp Hls Hterm Htid Hprog Hpid.
  pose proof (isValid_thumbnails s l Hp Hls) as Hv.
  rewrite (publishLesson_run e id s l) by done. rewrite answered_fst. subst id.
  set (l' := saved e l Lesson.published None (Some (now e))).
  assert (Hcount : ∀ s' p',
            lessons s' = <[Lesson._id l := l']> (lessons s) → terms s' = terms s →
            Program._id p' = Term.programId term →
            ∃ n, Program_getPublishedLessonsCount e2 p' s' = (s', Ok n) ∧ (1 ≤ n)%nat).
  { intros s' p' Hlessons Hterms Hp'.
    unfold Program_getPublishedLessonsCount, bind, awaitCall. rewrite Hq1.
    rewrite Lesson_countDocuments_run by done. eexists. split; [reflexivity |].
    apply (length_filter_pos _ _ l').
    - apply allLessons_In. exists (Lesson._id l). rewrite Hlessons.
      apply lookup_insert_eq.
    - unfold publishedInTerms, l'. rewrite saved_termId, saved_status.
      rewrite bool_decide_eq_true_2 by done. rewrite andb_true_r.
      apply existsb_exists. exists (Term._id term). split; [| by rewrite Htid, Nat.eqb_refl].
      apply in_map_iff. exists term. split; [done |].
      apply filter_In. split.
      + apply allTerms_In. exists (Lesson.termId l). by rewrite Hterms.
      + rewrite bool_decide_eq_true. congruence. }
  destruct (decide (Program.status program = Program.draft)) as [Hdraft|Hdraft].
  - rewrite (publish_draft_program e s l term program) by done. cbn [fst].
    set (p' := savedProgram e program Program.published
                 (match Program.publishedAt program with
                  | Some d => Some d
                  | None => Some (nowCascade e)
                  end)).
    assert (Hst : Program.status p' = Program.published)
      by (unfold p', savedProgram; by autorewrite with timestamps).
    assert (Hid' : Program._id p' = Term.programId term)
      by (unfold p', savedProgram; by autorewrite with timestamps).
    destruct (Hcount
                (setPrograms (setLessons s (<[Lesson._id l := l']> (lessons s)))
                   (<[Program._id program := p']> (programs s))) p')
      as (n & Hn & Hpos); [done | done | done |].
    exists p', n. cbn [programs setPrograms]. rewrite Hpid, lookup_insert_eq.
    split; [reflexivity |]. rewrite Hst. split; [done |]. split; [done |].
    rewrite <- Hpid. split; [exact Hn | exact Hpos].
  - rewrite (publish_other_program e s l term program) by done. cbn [fst].
    destruct (Hcount (setLessons s (<[Lesson._id l := l']> (lessons s))) program)
      as (n & Hn & Hpos); [done | done | done |].
    exists program, n. cbn [programs setLessons]. by repeat split.
Qed.

Lemma published_lesson_counts_for_its_program_witness :
  programs storeDraft !! 100 = Some draftProgram
  ∧ ∃ p' n,
      programs (fst (publishLesson quietEnv 1 storeDraft)) !! 100 = Some p'
      ∧ Program.status p' = Program.published
      ∧ Program_getPublishedLessonsCount quietCalls p' (fst (publishLesson quietEnv 1 storeDraft))
        = (fst (publishLesson quietEnv 1 storeDraft), Ok n)
      ∧ (1 ≤ n)%nat.
Proof.
  split; [reflexivity |].
  destruct (published_lesson_counts_for_its_program quietEnv quietCalls storeDraft 1
              draftLesson sampleTerm draftProgram)
    as (p' & n & H1 & _ & H2 & H3 & H4); try reflexivity.
  - apply available_hasThumbnail. reflexivity.
  - apply available_hasThumbnail. reflexivity.
  - exists p', n. split; [exact H1 |]. split; [by apply H2 |]. by split.
Defined.

(** ** The table of the asset check *)

(** X19.  When its query succeeds, [validateAssets] depends only on which
    of the portrait and landscape thumbnails of the lesson's primary
    language exist, and has four outcomes: valid with no missing variant,
    or invalid with portrait, landscape, or portrait then landscape
    missing, each with its message.  Assets of other lessons, languages,
    types or variants, and duplicates, change nothing. *)
Theorem validateAssets_table e s l :
  fails e LessonAssetFind = false →
  ∃ v, validateAssets e l s = (s, Ok v)
    ∧ (hasThumbnail s l "portrait" → hasThumbnail s l "landscape" →
       v = {| isValid := true; missingVariants := [];
              message := "All required assets are present" |})
    ∧ (¬ hasThumbnail s l "portrait" → hasThumbnail s l "landscape" →
       v = {| isValid := false; missingVariants := ["portrait"];
              message := "Missing required thumbnail variants: portrait" |})
    ∧ (hasThumbnail s l "portrait" → ¬ hasThumbnail s l "landscape" →
       v = {| isValid := false; missingVariants := ["landscape"];
              message := "Missing required thumbnail variants: landscape" |})
    ∧ (¬ hasThumbnail s l "portrait" → ¬ hasThumbnail s l "landscape" →
       v = {| isValid := false; missingVariants := ["portrait"; "landscape"];
              message := "Missing required thumbnail variants: portrait, landscape" |}).
Proof.
  intros Ha. exists (assetCheck s l). split; [by apply validateAssets_run |].
  pose proof (available_hasThumbnail s l "portrait") as Hp.
  pose proof (available_hasThumbnail s l "landscape") as Hl.
  unfold assetCheck, checkVariants, requiredVariants. cbn [List.filter].
  destruct (includes _ "portrait"), (includes _ "landscape"); cbn;
    repeat split; intros; try done; exfalso; intuition congruence.
Qed.

Lemma validateAssets_table_witness :
  ∃ v, validateAssets quietEnv draftLesson storeMissingLandscape
       = (storeMissingLandscape, Ok v)
       ∧ v = {| isValid := false; missingVariants := ["landscape"];
                message := "Missing required thumbnail variants: landscape" |}.
Proof.
  destruct (validateAssets_table quietEnv storeMissingLandscape draftLesson eq_refl)
    as (v & Hrun & _ & _ & Hcase & _).
  exists v. split; [exact Hrun |]. apply Hcase.
  - apply available_hasThumbnail. reflexivity.
  - rewrite <- available_hasThumbnail. vm_compute. discriminate.
Defined.
